(** * Donor fund tracker: the canister of [src/dfinity_js_backend/src/index.ts]

    A shallow embedding of the Azle canister and the properties of its
    donation reservation and payment verification protocol.

    - Candid [text] is [string], [nat64] and JS [bigint] are [Z], [Opt] is
      [option], a [Variant] is an inductive type, a [Record] is a record.
    - The six [StableBTreeMap]s are finite maps ([gmap]) gathered in [State].
    - A canister method is a computation in [M]: it threads the stores and
      either completes normally or throws. A call that throws traps: the
      canister keeps nothing of what it wrote ([update]).
    - The ledger may reject the call to [query_blocks], and the donor store
      refuses a [donationAmount] that is no [nat64].
    - What the canister takes from its platform and from npm packages
      (the [hashcode] package, the ledger address encoding, [!==] on
      [Principal] objects, the regular expression engine) is a field of
      the class [Platform]: the properties hold whatever these are. *)

From stdpp Require Import base option list strings gmap fin_maps pretty.

Local Open Scope string_scope.

(** ** Candid values *)

(** A [Principal] is identified by its textual form. *)
Record Principal := PrincipalFromText { toText : string }.

Global Instance Principal_eq_dec : EqDecision Principal.
Proof. solve_decision. Defined.

Global Instance Principal_countable : Countable Principal :=
  inj_countable' toText PrincipalFromText (λ p, match p with PrincipalFromText _ => eq_refl end).

(** [Result(T, E)] with its two tags. *)
Inductive Result (T E : Type) : Type :=
| Ok (value : T)
| Err (error : E).
Global Arguments Ok {T E} value.
Global Arguments Err {T E} error.

(** A ledger account identifier, a [Uint8Array]. *)
Definition Address : Type := list Byte.byte.

(** JS truthiness of a string ([!s] is [negb (truthy s)]) and of a bigint. *)
Definition truthy (s : string) : bool := negb (String.eqb s "").
Definition truthy_nat64 (n : Z) : bool := negb (n =? 0)%Z.

(** ** Records and variants of the canister *)

Module DonorProfile.
Record t := mk {
  id : string;
  owner : Principal;
  name : string;
  phoneNumber : string;
  email : string;
  address : string;
  donationAmount : Z;
  donations : list string;
  donationsCount : Z;
  status : string;
  joinedAt : string }.
End DonorProfile.

Module Charity.
Record t := mk {
  id : string;
  owner : Principal;
  name : string;
  phoneNumber : string;
  email : string;
  address : string;
  missionStatement : string;
  totalReceived : Z;
  donationsReceived : list string;
  donationsCount : Z;
  status : string;
  registeredAt : string }.
End Charity.

Module CampaignStatus.
Inductive t :=
| Active (s : string)
| Accepted (s : string)
| Completed (s : string)
| Cancelled (s : string)
| Pending (s : string).
End CampaignStatus.

Module Campaign.
Record t := mk {
  id : string;
  charityId : string;
  title : string;
  description : string;
  targetAmount : Z;
  totalReceived : Z;
  donors : list string;
  status : CampaignStatus.t;
  creator : Principal;
  startedAt : string }.
End Campaign.

Module DonationStatus.
Inductive t :=
| PaymentPending (s : string)
| Completed (s : string)
| Cancelled (s : string).
End DonationStatus.

Module Donation.
Record t := mk {
  id : string;
  donorId : string;
  charityId : string;
  campaignId : string;
  donator : Principal;
  receiver : Principal;
  amount : Z;
  status : DonationStatus.t;
  createdAt : string;
  paid_at_block : option Z;
  memo : Z }.
End Donation.

Module DonationReportStatus.
Inductive t :=
| Pending (s : string)
| Completed (s : string)
| Cancelled (s : string).
End DonationReportStatus.

Module DonationReport.
Record t := mk {
  id : string;
  donorId : string;
  charityId : string;
  campaignId : string;
  campaignTitle : string;
  amount : Z;
  status : DonationReportStatus.t;
  createdAt : string;
  paidAt : option string }.
End DonationReport.

Inductive Message :=
| Success (s : string)
| Error (s : string)
| NotFound (s : string)
| InvalidPayload (s : string)
| PaymentFailed (s : string)
| PaymentCompleted (s : string).

(** ** Payloads *)

Module DonorProfilePayload.
Record t := mk {
  name : string;
  phoneNumber : string;
  email : string;
  address : string }.
End DonorProfilePayload.

Module CharityProfilePayload.
Record t := mk {
  name : string;
  phoneNumber : string;
  email : string;
  address : string;
  missionStatement : string }.
End CharityProfilePayload.

Module CampaignPayload.
Record t := mk {
  charityId : string;
  title : string;
  description : string;
  targetAmount : Z }.
End CampaignPayload.

Module DonationPayload.
Record t := mk {
  donorId : string;
  charityId : string;
  campaignId : string;
  amount : Z }.
End DonationPayload.

Module DonationReportPayload.
Record t := mk {
  donorId : string;
  charityId : string;
  campaignId : string;
  campaignTitle : string;
  amount : Z }.
End DonationReportPayload.

(** ** The ledger canister's blocks, as far as [query_blocks] is read *)

Module Ledger.
Record Tokens := mkTokens { e8s : Z }.

Inductive Operation :=
| Mint (to : Address) (amount : Tokens)
| Burn (from : Address) (amount : Tokens)
| Transfer (from to : Address) (amount fee : Tokens).

Record Transaction := mkTransaction {
  memo : Z;
  operation : option Operation }.

Record Block := mkBlock { transaction : Transaction }.

(** [operation.Transfer], [undefined] on the other tags. *)
Record TransferFields := mkTransfer {
  from : Address;
  to : Address;
  amount : Tokens;
  fee : Tokens }.

Definition Transfer_of (op : Operation) : option TransferFields :=
  match op with
  | Transfer f t a fe => Some (mkTransfer f t a fe)
  | Mint _ _ | Burn _ _ => None
  end.
End Ledger.

(** ** Storage *)

Record State := mkState {
  donorProfileStorage : gmap string DonorProfile.t;
  charityProfileStorage : gmap string Charity.t;
  campaignStorage : gmap string Campaign.t;
  persistedReserves : gmap Principal Donation.t;
  pendingReserves : gmap Z Donation.t;
  donationReportStorage : gmap string DonationReport.t;
  (** timers armed by [ic.setTimer]: the delay and the memo the callback
      closes over *)
  timers : list (Z * Z) }.

Definition init_state : State :=
  mkState ∅ ∅ ∅ ∅ ∅ ∅ [].

Definition TIMEOUT_PERIOD : Z := 9600.

(** ** Computations: the stores are threaded; inside a method a [throw]
    keeps what was written before it, so that a [catch] sees it

    [Throw] carries the thrown value the way a template literal prints it. *)

Inductive Completion (A : Type) : Type :=
| Normal (a : A)
| Throw (error : string).
Global Arguments Normal {A} a.
Global Arguments Throw {A} error.

Definition M (A : Type) : Type := State → Completion A * State.

Global Instance M_ret : MRet M := λ A a s, (Normal a, s).

Global Instance M_bind : MBind M := λ A B f m s,
  match m s with
  | (Normal a, s') => f a s'
  | (Throw e, s') => (Throw e, s')
  end.

Global Instance M_fmap : FMap M := λ A B f m s,
  match m s with
  | (Normal a, s') => (Normal (f a), s')
  | (Throw e, s') => (Throw e, s')
  end.

Definition throw {A} (e : string) : M A := λ s, (Throw e, s).

(** [try { body } catch (error) { handler }] *)
Definition try_catch {A} (body : M A) (handler : string → M A) : M A := λ s,
  match body s with
  | (Normal a, s') => (Normal a, s')
  | (Throw e, s') => handler e s'
  end.

(** [await] of a promise that resolves to a value or rejects. *)
Definition await {A} (promise : Completion A) : M A := λ s, (promise, s).

(** What [update] makes of a method: when the method throws, the call traps
    and the canister keeps nothing of what the call wrote. (What an [async]
    method writes before its first [await] would stay; no method of this
    canister writes before it awaits.) *)
Definition update {A} (method : M A) : M A := λ s,
  match method s with
  | (Normal a, s') => (Normal a, s')
  | (Throw e, _) => (Throw e, s)
  end.

(** A Candid [nat64]. *)
Definition nat64 (n : Z) : bool := (0 <=? n)%Z && (n <? 2 ^ 64)%Z.

(** A [StableBTreeMap] is a field of [State]. *)
Record Table (K V : Type) `{Countable K} := mkTable {
  table_get : State → gmap K V;
  table_set : gmap K V → State → State }.
Global Arguments mkTable {K V _ _} table_get table_set.
Global Arguments table_get {K V _ _} _ _.
Global Arguments table_set {K V _ _} _ _ _.

Module StableBTreeMap.
Section ops.
Context {K V : Type} `{Countable K}.

Definition get (T : Table K V) (k : K) : M (option V) := λ s,
  (Normal (table_get T s !! k), s).

(** returns the previous value *)
Definition insert (T : Table K V) (k : K) (v : V) : M (option V) := λ s,
  (Normal (table_get T s !! k), table_set T (<[k := v]> (table_get T s)) s).

(** returns the removed value *)
Definition remove (T : Table K V) (k : K) : M (option V) := λ s,
  (Normal (table_get T s !! k), table_set T (delete k (table_get T s)) s).

Definition values (T : Table K V) : M (list V) := λ s,
  (Normal ((map_to_list (table_get T s)).*2), s).
End ops.
End StableBTreeMap.

Definition donorProfileStorageT : Table string DonorProfile.t :=
  mkTable donorProfileStorage
    (λ m s, mkState m (charityProfileStorage s) (campaignStorage s)
              (persistedReserves s) (pendingReserves s) (donationReportStorage s) (timers s)).

Definition charityProfileStorageT : Table string Charity.t :=
  mkTable charityProfileStorage
    (λ m s, mkState (donorProfileStorage s) m (campaignStorage s)
              (persistedReserves s) (pendingReserves s) (donationReportStorage s) (timers s)).

Definition campaignStorageT : Table string Campaign.t :=
  mkTable campaignStorage
    (λ m s, mkState (donorProfileStorage s) (charityProfileStorage s) m
              (persistedReserves s) (pendingReserves s) (donationReportStorage s) (timers s)).

Definition persistedReservesT : Table Principal Donation.t :=
  mkTable persistedReserves
    (λ m s, mkState (donorProfileStorage s) (charityProfileStorage s) (campaignStorage s)
              m (pendingReserves s) (donationReportStorage s) (timers s)).

Definition pendingReservesT : Table Z Donation.t :=
  mkTable pendingReserves
    (λ m s, mkState (donorProfileStorage s) (charityProfileStorage s) (campaignStorage s)
              (persistedReserves s) m (donationReportStorage s) (timers s)).

Definition donationReportStorageT : Table string DonationReport.t :=
  mkTable donationReportStorage
    (λ m s, mkState (donorProfileStorage s) (charityProfileStorage s) (campaignStorage s)
              (persistedReserves s) (pendingReserves s) m (timers s)).

(** [ic.setTimer(delay, callback)] where the callback closes over [memo] *)
Definition ic_setTimer (delay memo : Z) : M unit := λ s,
  (Normal (),
   mkState (donorProfileStorage s) (charityProfileStorage s) (campaignStorage s)
     (persistedReserves s) (pendingReserves s) (donationReportStorage s)
     (timers s ++ [(delay, memo)])).

(** ** What a call sees of its surroundings *)

(** What comes of a call to another canister: its answer, or a rejection,
    which the awaiting method gets as an exception. *)
Inductive CallResult (A : Type) : Type :=
| Answered (answer : A)
| Rejected (error : string).
Global Arguments Answered {A} answer.
Global Arguments Rejected {A} error.

Record Env := mkEnv {
  (** [ic.caller()] *)
  caller : Principal;
  (** [ic.time()] *)
  time : Z;
  (** the value [uuidv4()] returns in this call *)
  uuid : string;
  (** [new Date().toISOString()] *)
  now : string;
  (** what comes of [ic.call(icpCanister.query_blocks, {start, length})]: the
      [blocks] of the answer, or the rejection *)
  query_blocks : Z → Z → CallResult (list Ledger.Block) }.

(** A value handed to [hash]. *)
Inductive JsValue :=
| JsString (s : string)
| JsBytes (a : Address)
| JsUndefined.

Definition js_bytes (o : option Address) : JsValue :=
  match o with
  | Some a => JsBytes a
  | None => JsUndefined
  end.

(** ** The canister *)

(** What the canister takes from its platform and from npm packages. *)
Class Platform := {
  (** [hashCode().value] of the npm package [hashcode] *)
  hashCode_value : JsValue → Z;
  (** [binaryAddressFromPrincipal] of [azle/canisters/ledger] *)
  binaryAddressFromPrincipal : Principal → Z → Address;
  (** [a !== b] on two [Principal] objects *)
  strict_neq : Principal → Principal → bool;
  (** [/^[^\s@]+@[^\s@]+\.[^\s@]+$/.test] *)
  emailRegex_test : string → bool;
  (** what a store throws when it is given, as a [nat64], a number that is
      none *)
  nat64_error : Z → string }.

Section Canister.

Context `{Platform}.

(** *** Helper functions *)

Definition hash (input : JsValue) : Z :=
  Z.abs (hashCode_value input).

Definition generateCorrelationId (env : Env) (bookId : string) : Z :=
  let correlationId :=
    bookId +:+ "_" +:+ toText (caller env) +:+ "_" +:+ pretty (time env) in
  hash (JsString correlationId).

(** The function handed to [ic.setTimer] by [discardByTimeout]; its
    [console.log] leaves the stores alone. *)
Definition discardByTimeout_callback (memo : Z) : M unit :=
  order ← StableBTreeMap.remove pendingReservesT memo;
  mret ().

Definition discardByTimeout (memo delay : Z) : M unit :=
  ic_setTimer delay memo.

(** The predicate given to [blockData.blocks.find]. *)
Definition verifyPayment_matches (env : Env) (receiver : Principal)
    (amount memo : Z) (block : Ledger.Block) : bool :=
  match Ledger.operation (Ledger.transaction block) with
  | None => false
  | Some operation =>
      let senderAddress := binaryAddressFromPrincipal (caller env) 0 in
      let receiverAddress := binaryAddressFromPrincipal receiver 0 in
      let Transfer := Ledger.Transfer_of operation in
      (Ledger.memo (Ledger.transaction block) =? memo)%Z
      && (hash (JsBytes senderAddress) =? hash (js_bytes (Ledger.from <$> Transfer)))%Z
      && (hash (JsBytes receiverAddress) =? hash (js_bytes (Ledger.to <$> Transfer)))%Z
      && match Transfer with
         | Some t => (amount =? Ledger.e8s (Ledger.amount t))%Z
         | None => false
         end
  end.

(** The promise of [verifyPaymentInternal]: it rejects when the call to the
    ledger is rejected, which nothing here catches. *)
Definition verifyPaymentInternal (env : Env) (receiver : Principal)
    (amount block memo : Z) : Completion bool :=
  match query_blocks env block 1 with
  | Rejected error => Throw error
  | Answered blockData =>
      let tx := List.find (verifyPayment_matches env receiver amount memo) blockData in
      Normal (match tx with
              | Some _ => true
              | None => false
              end)
  end.

(** A query: it reads no store, and traps when its promise rejects. *)
Definition verifyPayment (env : Env) (receiver : Principal)
    (amount block memo : Z) : Completion bool :=
  verifyPaymentInternal env receiver amount block memo.

(** *** Donor profiles *)

Definition createDonorProfile (env : Env) (payload : DonorProfilePayload.t)
    : M (Result DonorProfile.t Message) :=
  if negb (truthy (DonorProfilePayload.name payload))
     || negb (truthy (DonorProfilePayload.email payload))
     || negb (truthy (DonorProfilePayload.phoneNumber payload))
     || negb (truthy (DonorProfilePayload.address payload))
  then mret (Err (InvalidPayload "Missing required fields"))
  else if negb (emailRegex_test (DonorProfilePayload.email payload))
  then mret (Err (InvalidPayload "Invalid email format"))
  else
    donorProfiles ← StableBTreeMap.values donorProfileStorageT;
    let emailExists :=
      existsb (λ profile, String.eqb (DonorProfile.email profile)
                                     (DonorProfilePayload.email payload))
              donorProfiles in
    if emailExists
    then mret (Err (InvalidPayload "Email already exists"))
    else
      let donorId := uuid env in
      let donor :=
        {| DonorProfile.id := donorId;
           DonorProfile.owner := caller env;
           DonorProfile.name := DonorProfilePayload.name payload;
           DonorProfile.phoneNumber := DonorProfilePayload.phoneNumber payload;
           DonorProfile.email := DonorProfilePayload.email payload;
           DonorProfile.address := DonorProfilePayload.address payload;
           DonorProfile.donationAmount := 0;
           DonorProfile.donations := [];
           DonorProfile.donationsCount := 0;
           DonorProfile.status := "Active";
           DonorProfile.joinedAt := now env |} in
      StableBTreeMap.insert donorProfileStorageT donorId donor;;
      mret (Ok donor).

Definition updateDonorProfile (env : Env) (donorId : string)
    (payload : DonorProfilePayload.t) : M (Result DonorProfile.t Message) :=
  donorProfileOpt ← StableBTreeMap.get donorProfileStorageT donorId;
  match donorProfileOpt with
  | None => mret (Err (NotFound ("Donor profile with id=" +:+ donorId +:+ " not found")))
  | Some donorProfile =>
      if strict_neq (DonorProfile.owner donorProfile) (caller env)
      then mret (Err (Error "Unauthorized"))
      else
        let updatedDonorProfile :=
          {| DonorProfile.id := DonorProfile.id donorProfile;
             DonorProfile.owner := DonorProfile.owner donorProfile;
             DonorProfile.name := DonorProfilePayload.name payload;
             DonorProfile.phoneNumber := DonorProfilePayload.phoneNumber payload;
             DonorProfile.email := DonorProfilePayload.email payload;
             DonorProfile.address := DonorProfilePayload.address payload;
             DonorProfile.donationAmount := DonorProfile.donationAmount donorProfile;
             DonorProfile.donations := DonorProfile.donations donorProfile;
             DonorProfile.donationsCount := DonorProfile.donationsCount donorProfile;
             DonorProfile.status := DonorProfile.status donorProfile;
             DonorProfile.joinedAt := DonorProfile.joinedAt donorProfile |} in
        StableBTreeMap.insert donorProfileStorageT donorId updatedDonorProfile;;
        mret (Ok updatedDonorProfile)
  end.

Definition deleteDonorProfile (env : Env) (donorId : string)
    : M (Result unit Message) :=
  donorProfileOpt ← StableBTreeMap.get donorProfileStorageT donorId;
  match donorProfileOpt with
  | None => mret (Err (NotFound ("Donor profile with id=" +:+ donorId +:+ " not found")))
  | Some donorProfile =>
      if strict_neq (DonorProfile.owner donorProfile) (caller env)
      then mret (Err (Error "Unauthorized"))
      else
        StableBTreeMap.remove donorProfileStorageT donorId;;
        mret (Ok ())
  end.

(** *** Charity profiles *)

Definition createCharityProfile (env : Env) (payload : CharityProfilePayload.t)
    : M (Result Charity.t Message) :=
  if negb (truthy (CharityProfilePayload.name payload))
     || negb (truthy (CharityProfilePayload.email payload))
     || negb (truthy (CharityProfilePayload.phoneNumber payload))
     || negb (truthy (CharityProfilePayload.address payload))
     || negb (truthy (CharityProfilePayload.missionStatement payload))
  then mret (Err (InvalidPayload "Missing required fields"))
  else if negb (emailRegex_test (CharityProfilePayload.email payload))
  then mret (Err (InvalidPayload "Invalid email format"))
  else
    charityProfiles ← StableBTreeMap.values charityProfileStorageT;
    let emailExists :=
      existsb (λ profile, String.eqb (Charity.email profile)
                                     (CharityProfilePayload.email payload))
              charityProfiles in
    if emailExists
    then mret (Err (InvalidPayload "Email already exists"))
    else
      let charityId := uuid env in
      let charity :=
        {| Charity.id := charityId;
           Charity.owner := caller env;
           Charity.name := CharityProfilePayload.name payload;
           Charity.phoneNumber := CharityProfilePayload.phoneNumber payload;
           Charity.email := CharityProfilePayload.email payload;
           Charity.address := CharityProfilePayload.address payload;
           Charity.missionStatement := CharityProfilePayload.missionStatement payload;
           Charity.totalReceived := 0;
           Charity.donationsReceived := [];
           Charity.donationsCount := 0;
           Charity.status := "Active";
           Charity.registeredAt := now env |} in
      StableBTreeMap.insert charityProfileStorageT charityId charity;;
      mret (Ok charity).

Definition updateCharityProfile (env : Env) (charityId : string)
    (payload : CharityProfilePayload.t) : M (Result Charity.t Message) :=
  charityProfileOpt ← StableBTreeMap.get charityProfileStorageT charityId;
  match charityProfileOpt with
  | None => mret (Err (NotFound ("Charity profile with id=" +:+ charityId +:+ " not found")))
  | Some charityProfile =>
      if strict_neq (Charity.owner charityProfile) (caller env)
      then mret (Err (Error "Unauthorized"))
      else
        let updatedCharityProfile :=
          {| Charity.id := Charity.id charityProfile;
             Charity.owner := Charity.owner charityProfile;
             Charity.name := CharityProfilePayload.name payload;
             Charity.phoneNumber := CharityProfilePayload.phoneNumber payload;
             Charity.email := CharityProfilePayload.email payload;
             Charity.address := CharityProfilePayload.address payload;
             Charity.missionStatement := CharityProfilePayload.missionStatement payload;
             Charity.totalReceived := Charity.totalReceived charityProfile;
             Charity.donationsReceived := Charity.donationsReceived charityProfile;
             Charity.donationsCount := Charity.donationsCount charityProfile;
             Charity.status := Charity.status charityProfile;
             Charity.registeredAt := Charity.registeredAt charityProfile |} in
        StableBTreeMap.insert charityProfileStorageT charityId updatedCharityProfile;;
        mret (Ok updatedCharityProfile)
  end.

Definition deleteCharityProfile (env : Env) (charityId : string)
    : M (Result unit Message) :=
  charityProfileOpt ← StableBTreeMap.get charityProfileStorageT charityId;
  match charityProfileOpt with
  | None => mret (Err (NotFound ("Charity profile with id=" +:+ charityId +:+ " not found")))
  | Some charityProfile =>
      if strict_neq (Charity.owner charityProfile) (caller env)
      then mret (Err (Error "Unauthorized"))
      else
        StableBTreeMap.remove charityProfileStorageT charityId;;
        mret (Ok ())
  end.

(** *** Campaign functions *)

Definition createCampaign (env : Env) (payload : CampaignPayload.t)
    : M (Result Campaign.t Message) :=
  if negb (truthy (CampaignPayload.title payload))
     || negb (truthy (CampaignPayload.description payload))
     || negb (truthy_nat64 (CampaignPayload.targetAmount payload))
  then mret (Err (InvalidPayload "Missing required fields"))
  else
    charityProfileOpt ← StableBTreeMap.get charityProfileStorageT (CampaignPayload.charityId payload);
    match charityProfileOpt with
    | None =>
        mret (Err (NotFound ("Charity with id=" +:+ CampaignPayload.charityId payload
                             +:+ " not found")))
    | Some _ =>
        let campaignId := uuid env in
        let campaign :=
          {| Campaign.id := campaignId;
             Campaign.charityId := CampaignPayload.charityId payload;
             Campaign.title := CampaignPayload.title payload;
             Campaign.description := CampaignPayload.description payload;
             Campaign.targetAmount := CampaignPayload.targetAmount payload;
             Campaign.totalReceived := 0;
             Campaign.donors := [];
             Campaign.status := CampaignStatus.Pending "Pending";
             Campaign.creator := caller env;
             Campaign.startedAt := now env |} in
        StableBTreeMap.insert campaignStorageT campaignId campaign;;
        mret (Ok campaign)
    end.

Definition updateCampaign (env : Env) (campaignId : string)
    (payload : CampaignPayload.t) : M (Result Campaign.t Message) :=
  campaignOpt ← StableBTreeMap.get campaignStorageT campaignId;
  match campaignOpt with
  | None => mret (Err (NotFound ("Campaign with id=" +:+ campaignId +:+ " not found")))
  | Some campaign =>
      if strict_neq (Campaign.creator campaign) (caller env)
      then mret (Err (Error "Unauthorized"))
      else
        let updatedCampaign :=
          {| Campaign.id := Campaign.id campaign;
             Campaign.charityId := CampaignPayload.charityId payload;
             Campaign.title := CampaignPayload.title payload;
             Campaign.description := CampaignPayload.description payload;
             Campaign.targetAmount := CampaignPayload.targetAmount payload;
             Campaign.totalReceived := Campaign.totalReceived campaign;
             Campaign.donors := Campaign.donors campaign;
             Campaign.status := Campaign.status campaign;
             Campaign.creator := Campaign.creator campaign;
             Campaign.startedAt := Campaign.startedAt campaign |} in
        StableBTreeMap.insert campaignStorageT campaignId updatedCampaign;;
        mret (Ok updatedCampaign)
  end.

Definition deleteCampaignById (env : Env) (campaignId : string)
    : M (Result unit Message) :=
  campaignOpt ← StableBTreeMap.get campaignStorageT campaignId;
  match campaignOpt with
  | None => mret (Err (NotFound ("Campaign with id=" +:+ campaignId +:+ " not found")))
  | Some campaign =>
      if strict_neq (Campaign.creator campaign) (caller env)
      then mret (Err (Error "Unauthorized"))
      else
        StableBTreeMap.remove campaignStorageT campaignId;;
        mret (Ok ())
  end.

Definition completeCampaign (env : Env) (campaignId : string)
    : M (Result Campaign.t Message) :=
  campaignOpt ← StableBTreeMap.get campaignStorageT campaignId;
  match campaignOpt with
  | None => mret (Err (NotFound ("Campaign with id=" +:+ campaignId +:+ " not found")))
  | Some campaign =>
      let updatedCampaign :=
        {| Campaign.id := Campaign.id campaign;
           Campaign.charityId := Campaign.charityId campaign;
           Campaign.title := Campaign.title campaign;
           Campaign.description := Campaign.description campaign;
           Campaign.targetAmount := Campaign.targetAmount campaign;
           Campaign.totalReceived := Campaign.totalReceived campaign;
           Campaign.donors := Campaign.donors campaign;
           Campaign.status := CampaignStatus.Completed "Completed";
           Campaign.creator := Campaign.creator campaign;
           Campaign.startedAt := Campaign.startedAt campaign |} in
      StableBTreeMap.insert campaignStorageT campaignId updatedCampaign;;
      mret (Ok updatedCampaign)
  end.

Definition acceptCampaign (env : Env) (donorId campaignId : string)
    : M (Result Campaign.t Message) :=
  donorProfileOpt ← StableBTreeMap.get donorProfileStorageT donorId;
  match donorProfileOpt with
  | None => mret (Err (NotFound ("Donor with id=" +:+ donorId +:+ " not found")))
  | Some donor =>
  campaignOpt ← StableBTreeMap.get campaignStorageT campaignId;
  match campaignOpt with
  | None => mret (Err (NotFound ("Campaign with id=" +:+ campaignId +:+ " not found")))
  | Some campaign =>
      let updatedDonor :=
        {| DonorProfile.id := DonorProfile.id donor;
           DonorProfile.owner := DonorProfile.owner donor;
           DonorProfile.name := DonorProfile.name donor;
           DonorProfile.phoneNumber := DonorProfile.phoneNumber donor;
           DonorProfile.email := DonorProfile.email donor;
           DonorProfile.address := DonorProfile.address donor;
           DonorProfile.donationAmount := DonorProfile.donationAmount donor;
           DonorProfile.donations := DonorProfile.donations donor ++ [campaignId];
           DonorProfile.donationsCount := (DonorProfile.donationsCount donor + 1)%Z;
           DonorProfile.status := DonorProfile.status donor;
           DonorProfile.joinedAt := DonorProfile.joinedAt donor |} in
      StableBTreeMap.insert donorProfileStorageT donorId updatedDonor;;
      let updatedCampaign :=
        {| Campaign.id := Campaign.id campaign;
           Campaign.charityId := Campaign.charityId campaign;
           Campaign.title := Campaign.title campaign;
           Campaign.description := Campaign.description campaign;
           Campaign.targetAmount := Campaign.targetAmount campaign;
           Campaign.totalReceived := Campaign.totalReceived campaign;
           Campaign.donors := Campaign.donors campaign ++ [donorId];
           Campaign.status := CampaignStatus.Accepted "Accepted";
           Campaign.creator := Campaign.creator campaign;
           Campaign.startedAt := Campaign.startedAt campaign |} in
      StableBTreeMap.insert campaignStorageT campaignId updatedCampaign;;
      mret (Ok updatedCampaign)
  end end.

(** *** Donation functions *)

Definition reserveDonation (env : Env) (payload : DonationPayload.t)
    : M (Result Donation.t Message) :=
  if negb (truthy (DonationPayload.donorId payload))
     || negb (truthy (DonationPayload.charityId payload))
     || negb (truthy (DonationPayload.campaignId payload))
  then mret (Err (InvalidPayload "Ensure all required fields are provided"))
  else
    donorProfileOpt ← StableBTreeMap.get donorProfileStorageT (DonationPayload.donorId payload);
    match donorProfileOpt with
    | None =>
        mret (Err (NotFound ("Cannot reserve donation: Donor with id="
                             +:+ DonationPayload.donorId payload +:+ " not found")))
    | Some donor =>
    charityProfileOpt ← StableBTreeMap.get charityProfileStorageT (DonationPayload.charityId payload);
    match charityProfileOpt with
    | None =>
        mret (Err (NotFound ("Cannot reserve donation: Charity with id="
                             +:+ DonationPayload.charityId payload +:+ " not found")))
    | Some charity =>
    campaignOpt ← StableBTreeMap.get campaignStorageT (DonationPayload.campaignId payload);
    match campaignOpt with
    | None =>
        mret (Err (NotFound ("Cannot reserve donation: Campaign with id="
                             +:+ DonationPayload.campaignId payload +:+ " not found")))
    | Some campaign =>
    try_catch
      (let donationId := uuid env in
       let donation :=
         {| Donation.id := donationId;
            Donation.donorId := DonationPayload.donorId payload;
            Donation.charityId := DonationPayload.charityId payload;
            Donation.campaignId := DonationPayload.campaignId payload;
            Donation.donator := DonorProfile.owner donor;
            Donation.receiver := Campaign.creator campaign;
            Donation.amount := DonationPayload.amount payload;
            Donation.status := DonationStatus.PaymentPending "PaymentPending";
            Donation.createdAt := now env;
            Donation.paid_at_block := None;
            Donation.memo := generateCorrelationId env (DonationPayload.donorId payload) |} in
       StableBTreeMap.insert pendingReservesT (Donation.memo donation) donation;;
       discardByTimeout (Donation.memo donation) TIMEOUT_PERIOD;;
       mret (Ok donation))
      (λ error,
         mret (Err (Error ("An error occurred while creating the reserve: " +:+ error))))
    end end end.

(** [donorProfileStorage.insert] of a donor whose [donationAmount] was just
    computed: the store refuses a number that is no [nat64]. (Everywhere else
    the numbers that are stored come from a payload or from the store, or are
    0, or count the elements of a stored list, as [donationsCount] does in
    [acceptCampaign].) *)
Definition donorProfileStorage_insert (key : string) (donor : DonorProfile.t)
    : M (option DonorProfile.t) :=
  if nat64 (DonorProfile.donationAmount donor)
  then StableBTreeMap.insert donorProfileStorageT key donor
  else throw (nat64_error (DonorProfile.donationAmount donor)).

(** The [async] function given to [update]. *)
Definition completeReserveDonation_callback (env : Env) (reservor : Principal)
    (donorId : string) (reservePrice block memo : Z)
    : M (Result Donation.t Message) :=
  paymentVerified ← await (verifyPaymentInternal env reservor reservePrice block memo);
  if negb paymentVerified
  then mret (Err (NotFound ("Cannot complete the donation reserve: cannot verify the payment, memo="
                            +:+ pretty memo)))
  else
    pendingReserveOpt ← StableBTreeMap.remove pendingReservesT memo;
    match pendingReserveOpt with
    | None =>
        mret (Err (NotFound ("Cannot complete the donation reserve: there is no pending reserve with id="
                             +:+ donorId)))
    | Some reserve =>
    let updatedReserve :=
      {| Donation.id := Donation.id reserve;
         Donation.donorId := Donation.donorId reserve;
         Donation.charityId := Donation.charityId reserve;
         Donation.campaignId := Donation.campaignId reserve;
         Donation.donator := Donation.donator reserve;
         Donation.receiver := Donation.receiver reserve;
         Donation.amount := Donation.amount reserve;
         Donation.status := DonationStatus.Completed "COMPLETED";
         Donation.createdAt := Donation.createdAt reserve;
         Donation.paid_at_block := Some block;
         Donation.memo := Donation.memo reserve |} in
    donorProfileOpt ← StableBTreeMap.get donorProfileStorageT donorId;
    match donorProfileOpt with
    | None => throw ("Error: Donor with id=" +:+ donorId +:+ " not found")
    | Some donor =>
    let donor :=
      {| DonorProfile.id := DonorProfile.id donor;
         DonorProfile.owner := DonorProfile.owner donor;
         DonorProfile.name := DonorProfile.name donor;
         DonorProfile.phoneNumber := DonorProfile.phoneNumber donor;
         DonorProfile.email := DonorProfile.email donor;
         DonorProfile.address := DonorProfile.address donor;
         DonorProfile.donationAmount := (DonorProfile.donationAmount donor + reservePrice)%Z;
         DonorProfile.donations := DonorProfile.donations donor;
         DonorProfile.donationsCount := DonorProfile.donationsCount donor;
         DonorProfile.status := DonorProfile.status donor;
         DonorProfile.joinedAt := DonorProfile.joinedAt donor |} in
    donorProfileStorage_insert (DonorProfile.id donor) donor;;
    StableBTreeMap.insert persistedReservesT (caller env) updatedReserve;;
    mret (Ok updatedReserve)
    end end.

Definition completeReserveDonation (env : Env) (reservor : Principal)
    (donorId : string) (reservePrice block memo : Z)
    : M (Result Donation.t Message) :=
  update (completeReserveDonation_callback env reservor donorId reservePrice block memo).

(** *** Donation reports *)

Definition createDonationReport (env : Env) (payload : DonationReportPayload.t)
    : M (Result DonationReport.t Message) :=
  if negb (truthy (DonationReportPayload.donorId payload))
     || negb (truthy (DonationReportPayload.charityId payload))
     || negb (truthy (DonationReportPayload.campaignId payload))
     || negb (truthy (DonationReportPayload.campaignTitle payload))
     || negb (truthy_nat64 (DonationReportPayload.amount payload))
  then mret (Err (InvalidPayload "Missing required fields"))
  else
    donorProfileOpt ← StableBTreeMap.get donorProfileStorageT (DonationReportPayload.donorId payload);
    match donorProfileOpt with
    | None =>
        mret (Err (NotFound ("Cannot create donation report: Donor with id="
                             +:+ DonationReportPayload.donorId payload +:+ " not found")))
    | Some _ =>
    charityProfileOpt ← StableBTreeMap.get charityProfileStorageT (DonationReportPayload.charityId payload);
    match charityProfileOpt with
    | None =>
        mret (Err (NotFound ("Cannot create donation report: Charity with id="
                             +:+ DonationReportPayload.charityId payload +:+ " not found")))
    | Some _ =>
    campaignOpt ← StableBTreeMap.get campaignStorageT (DonationReportPayload.campaignId payload);
    match campaignOpt with
    | None =>
        mret (Err (NotFound ("Cannot create donation report: Campaign with id="
                             +:+ DonationReportPayload.campaignId payload +:+ " not found")))
    | Some _ =>
        let donationReportId := uuid env in
        let donationReport :=
          {| DonationReport.id := donationReportId;
             DonationReport.donorId := DonationReportPayload.donorId payload;
             DonationReport.charityId := DonationReportPayload.charityId payload;
             DonationReport.campaignId := DonationReportPayload.campaignId payload;
             DonationReport.campaignTitle := DonationReportPayload.campaignTitle payload;
             DonationReport.amount := DonationReportPayload.amount payload;
             DonationReport.status := DonationReportStatus.Completed "Completed";
             DonationReport.createdAt := now env;
             DonationReport.paidAt := None |} in
        StableBTreeMap.insert donationReportStorageT donationReportId donationReport;;
        mret (Ok donationReport)
    end end end.

(** *** The canister as a transition system *)

(** A timer armed by [discardByTimeout] goes off: it fires once. *)
Definition timerFires (i : nat) : M unit := λ s,
  match timers s !! i with
  | None => (Normal (), s)
  | Some (_, memo) =>
      discardByTimeout_callback memo
        (mkState (donorProfileStorage s) (charityProfileStorage s) (campaignStorage s)
           (persistedReserves s) (pendingReserves s) (donationReportStorage s)
           (delete i (timers s)))
  end.

(** An update call to the canister, or a timer going off. *)
Inductive Call :=
| CreateDonorProfile (payload : DonorProfilePayload.t)
| UpdateDonorProfile (donorId : string) (payload : DonorProfilePayload.t)
| DeleteDonorProfile (donorId : string)
| CreateCharityProfile (payload : CharityProfilePayload.t)
| UpdateCharityProfile (charityId : string) (payload : CharityProfilePayload.t)
| DeleteCharityProfile (charityId : string)
| CreateCampaign (payload : CampaignPayload.t)
| UpdateCampaign (campaignId : string) (payload : CampaignPayload.t)
| DeleteCampaignById (campaignId : string)
| CompleteCampaign (campaignId : string)
| AcceptCampaign (donorId campaignId : string)
| ReserveDonation (payload : DonationPayload.t)
| CompleteReserveDonation (reservor : Principal) (donorId : string)
    (reservePrice block memo : Z)
| CreateDonationReport (payload : DonationReportPayload.t)
| TimerFires (i : nat).

Inductive Response :=
| DonorProfileResponse (r : Result DonorProfile.t Message)
| CharityResponse (r : Result Charity.t Message)
| CampaignResponse (r : Result Campaign.t Message)
| NullResponse (r : Result unit Message)
| DonationResponse (r : Result Donation.t Message)
| DonationReportResponse (r : Result DonationReport.t Message)
| NoResponse.

Definition dispatch (env : Env) (call : Call) : M Response :=
  update
    match call with
    | CreateDonorProfile payload => DonorProfileResponse <$> createDonorProfile env payload
    | UpdateDonorProfile donorId payload =>
        DonorProfileResponse <$> updateDonorProfile env donorId payload
    | DeleteDonorProfile donorId => NullResponse <$> deleteDonorProfile env donorId
    | CreateCharityProfile payload => CharityResponse <$> createCharityProfile env payload
    | UpdateCharityProfile charityId payload =>
        CharityResponse <$> updateCharityProfile env charityId payload
    | DeleteCharityProfile charityId => NullResponse <$> deleteCharityProfile env charityId
    | CreateCampaign payload => CampaignResponse <$> createCampaign env payload
    | UpdateCampaign campaignId payload =>
        CampaignResponse <$> updateCampaign env campaignId payload
    | DeleteCampaignById campaignId => NullResponse <$> deleteCampaignById env campaignId
    | CompleteCampaign campaignId => CampaignResponse <$> completeCampaign env campaignId
    | AcceptCampaign donorId campaignId =>
        CampaignResponse <$> acceptCampaign env donorId campaignId
    | ReserveDonation payload => DonationResponse <$> reserveDonation env payload
    | CompleteReserveDonation reservor donorId reservePrice block memo =>
        DonationResponse <$> completeReserveDonation env reservor donorId reservePrice block memo
    | CreateDonationReport payload => DonationReportResponse <$> createDonationReport env payload
    | TimerFires i => (λ _, NoResponse) <$> timerFires i
    end.

(** The states the canister goes through from its deployment; [uuidv4()]
    never returns the empty string. *)
Inductive reachable : State → Prop :=
| reachable_init : reachable init_state
| reachable_step env call s :
    reachable s → uuid env ≠ "" → reachable (dispatch env call s).2.

(** *** Invariants of the stores *)

(** A donor is stored under its own [id], which is not empty. *)
Definition donor_keys_ok (s : State) : Prop :=
  ∀ k d, donorProfileStorage s !! k = Some d → DonorProfile.id d = k ∧ k ≠ "".

Definition charity_keys_ok (s : State) : Prop :=
  ∀ k c, charityProfileStorage s !! k = Some c → k ≠ "".

Definition campaign_keys_ok (s : State) : Prop :=
  ∀ k c, campaignStorage s !! k = Some c → k ≠ "".

(** A pending reserve is stored under its own [memo], still unpaid. *)
Definition pending_ok (s : State) : Prop :=
  ∀ m r, pendingReserves s !! m = Some r →
    Donation.memo r = m
    ∧ Donation.status r = DonationStatus.PaymentPending "PaymentPending"
    ∧ Donation.paid_at_block r = None.

Definition well_formed (s : State) : Prop :=
  donor_keys_ok s ∧ charity_keys_ok s ∧ campaign_keys_ok s ∧ pending_ok s.

(** *** What the verifier compares *)

(** The comparison [hash(a) === hash(b)] of [verifyPaymentInternal]: the two
    account identifiers have the same hash value. Equal identifiers have;
    different ones may. *)
Definition same_hash (a b : Address) : Prop :=
  hash (JsBytes a) = hash (JsBytes b).

(** The block carries a transfer that proves the payment. *)
Definition proves_payment (env : Env) (receiver : Principal) (amount memo : Z)
    (block : Ledger.Block) : Prop :=
  ∃ from to tokens fee,
    Ledger.operation (Ledger.transaction block)
      = Some (Ledger.Transfer from to tokens fee)
    ∧ Ledger.memo (Ledger.transaction block) = memo
    ∧ same_hash (binaryAddressFromPrincipal (caller env) 0) from
    ∧ same_hash (binaryAddressFromPrincipal receiver 0) to
    ∧ Ledger.e8s tokens = amount.

(** The donor after [reservePrice] was added to its [donationAmount]. *)
Definition credited (donor : DonorProfile.t) (reservePrice : Z) : DonorProfile.t :=
  {| DonorProfile.id := DonorProfile.id donor;
     DonorProfile.owner := DonorProfile.owner donor;
     DonorProfile.name := DonorProfile.name donor;
     DonorProfile.phoneNumber := DonorProfile.phoneNumber donor;
     DonorProfile.email := DonorProfile.email donor;
     DonorProfile.address := DonorProfile.address donor;
     DonorProfile.donationAmount := (DonorProfile.donationAmount donor + reservePrice)%Z;
     DonorProfile.donations := DonorProfile.donations donor;
     DonorProfile.donationsCount := DonorProfile.donationsCount donor;
     DonorProfile.status := DonorProfile.status donor;
     DonorProfile.joinedAt := DonorProfile.joinedAt donor |}.

(** The reserve once paid at [block]. *)
Definition paid (reserve : Donation.t) (block : Z) : Donation.t :=
  {| Donation.id := Donation.id reserve;
     Donation.donorId := Donation.donorId reserve;
     Donation.charityId := Donation.charityId reserve;
     Donation.campaignId := Donation.campaignId reserve;
     Donation.donator := Donation.donator reserve;
     Donation.receiver := Donation.receiver reserve;
     Donation.amount := Donation.amount reserve;
     Donation.status := DonationStatus.Completed "COMPLETED";
     Donation.createdAt := Donation.createdAt reserve;
     Donation.paid_at_block := Some block;
     Donation.memo := Donation.memo reserve |}.

(** The reserve [r] with other payment fields. *)
Definition with_payment_fields (r : Donation.t) (donator receiver : Principal)
    (amount : Z) : Donation.t :=
  {| Donation.id := Donation.id r;
     Donation.donorId := Donation.donorId r;
     Donation.charityId := Donation.charityId r;
     Donation.campaignId := Donation.campaignId r;
     Donation.donator := donator;
     Donation.receiver := receiver;
     Donation.amount := amount;
     Donation.status := Donation.status r;
     Donation.createdAt := Donation.createdAt r;
     Donation.paid_at_block := Donation.paid_at_block r;
     Donation.memo := Donation.memo r |}.

(** The stores with [r] as the pending reserve of [memo]. *)
Definition replace_pending (s : State) (memo : Z) (r : Donation.t) : State :=
  mkState (donorProfileStorage s) (charityProfileStorage s) (campaignStorage s)
    (persistedReserves s) (<[memo := r]> (pendingReserves s))
    (donationReportStorage s) (timers s).

(** *** Queries

    The queries read the stores through the same [get] and [values].
    [getDonorProfileByOwner] and [getCharityProfileByOwner] compare the
    [toText] members of two [Principal] objects, and [getAddressFromPrincipal]
    only calls [hexAddressFromPrincipal]: what they answer is decided inside
    these libraries, so they are left out. *)

Definition getDonorProfileById (donorId : string) : M (Result DonorProfile.t Message) :=
  donorProfileOpt ← StableBTreeMap.get donorProfileStorageT donorId;
  match donorProfileOpt with
  | None => mret (Err (NotFound ("Donor profile with id=" +:+ donorId +:+ " not found")))
  | Some donorProfile => mret (Ok donorProfile)
  end.

Definition getAllDonorProfiles : M (Result (list DonorProfile.t) Message) :=
  donorProfiles ← StableBTreeMap.values donorProfileStorageT;
  if (length donorProfiles =? 0)%nat
  then mret (Err (NotFound "No donor profiles found"))
  else mret (Ok donorProfiles).

Definition getCharityProfileById (charityId : string) : M (Result Charity.t Message) :=
  charityProfileOpt ← StableBTreeMap.get charityProfileStorageT charityId;
  match charityProfileOpt with
  | None => mret (Err (NotFound ("Charity profile with id=" +:+ charityId +:+ " not found")))
  | Some charityProfile => mret (Ok charityProfile)
  end.

Definition getAllCharityProfiles : M (Result (list Charity.t) Message) :=
  charityProfiles ← StableBTreeMap.values charityProfileStorageT;
  if (length charityProfiles =? 0)%nat
  then mret (Err (NotFound "No charity profiles found"))
  else mret (Ok charityProfiles).

Definition getCampaignById (campaignId : string) : M (Result Campaign.t Message) :=
  campaignOpt ← StableBTreeMap.get campaignStorageT campaignId;
  match campaignOpt with
  | None => mret (Err (NotFound ("Campaign with id=" +:+ campaignId +:+ " not found")))
  | Some campaign => mret (Ok campaign)
  end.

Definition getAllCampaigns : M (Result (list Campaign.t) Message) :=
  campaigns ← StableBTreeMap.values campaignStorageT;
  if (length campaigns =? 0)%nat
  then mret (Err (NotFound "No campaigns found"))
  else mret (Ok campaigns).

(** ["Accepted" in campaign.status && campaign.status.Accepted === "Accepted"] *)
Definition is_accepted (campaign : Campaign.t) : bool :=
  match Campaign.status campaign with
  | CampaignStatus.Accepted text => String.eqb text "Accepted"
  | _ => false
  end.

(** [campaign.status.Completed === "Completed"] *)
Definition is_completed (campaign : Campaign.t) : bool :=
  match Campaign.status campaign with
  | CampaignStatus.Completed text => String.eqb text "Completed"
  | _ => false
  end.

Definition getAcceptedCampaigns : M (Result (list Campaign.t) Message) :=
  values ← StableBTreeMap.values campaignStorageT;
  let campaigns := List.filter is_accepted values in
  if (length campaigns =? 0)%nat
  then mret (Err (NotFound "No accepted campaigns found"))
  else mret (Ok campaigns).

Definition getCompletedCampaigns : M (Result (list Campaign.t) Message) :=
  values ← StableBTreeMap.values campaignStorageT;
  let campaigns := List.filter is_completed values in
  if (length campaigns =? 0)%nat
  then mret (Err (NotFound "No completed campaigns found"))
  else mret (Ok campaigns).

(** [donors.includes(donorId)] *)
Definition includes (texts : list string) (text : string) : bool :=
  existsb (λ t, String.eqb t text) texts.

Definition getDonorCampaigns (donorId : string) : M (Result (list Campaign.t) Message) :=
  donorProfileOpt ← StableBTreeMap.get donorProfileStorageT donorId;
  match donorProfileOpt with
  | None => mret (Err (NotFound ("Donor with id=" +:+ donorId +:+ " not found")))
  | Some donor =>
      values ← StableBTreeMap.values campaignStorageT;
      let campaigns :=
        List.filter (λ campaign, includes (Campaign.donors campaign) donorId) values in
      if (length campaigns =? 0)%nat
      then mret (Err (NotFound "No campaigns found for this donor"))
      else mret (Ok campaigns)
  end.

Definition getAllDonations : M (Result (list Donation.t) Message) :=
  donations ← StableBTreeMap.values persistedReservesT;
  if (length donations =? 0)%nat
  then mret (Err (NotFound "No donations found"))
  else mret (Ok donations).

Definition getDonorDonations (donorId : string) : M (Result (list Donation.t) Message) :=
  values ← StableBTreeMap.values persistedReservesT;
  let donations :=
    List.filter (λ donation, String.eqb (Donation.donorId donation) donorId) values in
  if (length donations =? 0)%nat
  then mret (Err (NotFound "No donations found for this donor"))
  else mret (Ok donations).

Definition getCharityDonations (charityId : string) : M (Result (list Donation.t) Message) :=
  values ← StableBTreeMap.values persistedReservesT;
  let donations :=
    List.filter (λ donation, String.eqb (Donation.charityId donation) charityId) values in
  if (length donations =? 0)%nat
  then mret (Err (NotFound "No donations found for this charity"))
  else mret (Ok donations).

Definition getAllDonationReports : M (Result (list DonationReport.t) Message) :=
  donationReports ← StableBTreeMap.values donationReportStorageT;
  if (length donationReports =? 0)%nat
  then mret (Err (NotFound "No donation reports found"))
  else mret (Ok donationReports).

(** *** More invariants of the stores *)

(** Charities, campaigns and reports are stored under their own [id]. *)
Definition ids_ok (s : State) : Prop :=
  (∀ k c, charityProfileStorage s !! k = Some c → Charity.id c = k)
  ∧ (∀ k c, campaignStorage s !! k = Some c → Campaign.id c = k)
  ∧ (∀ k r, donationReportStorage s !! k = Some r → DonationReport.id r = k).

(** A donor counts the campaigns it accepted; the totals of charities and
    campaigns stay where their creation put them. *)
Definition aggregates_ok (s : State) : Prop :=
  (∀ k d, donorProfileStorage s !! k = Some d →
     DonorProfile.donationsCount d = Z.of_nat (length (DonorProfile.donations d)))
  ∧ (∀ k c, charityProfileStorage s !! k = Some c →
       Charity.totalReceived c = 0%Z
       ∧ Charity.donationsReceived c = []
       ∧ Charity.donationsCount c = 0%Z)
  ∧ (∀ k c, campaignStorage s !! k = Some c → Campaign.totalReceived c = 0%Z).

(** A completed donation is marked so and knows its block; a pending reserve
    has a memo that is not negative and a timer armed to discard it. *)
Definition reserves_ok (s : State) : Prop :=
  (∀ p d, persistedReserves s !! p = Some d →
     Donation.status d = DonationStatus.Completed "COMPLETED"
     ∧ is_Some (Donation.paid_at_block d))
  ∧ (∀ m r, pendingReserves s !! m = Some r →
       (0 ≤ m)%Z ∧ ∃ i, timers s !! i = Some (TIMEOUT_PERIOD, m)).

(** What a listing query answers over the values of [m] that [keep] selects:
    these values, or [NotFound text] when there is none. *)
Definition lists {K V} `{Countable K} (keep : V → bool) (m : gmap K V)
    (text : string) (answer : Result (list V) Message) : Prop :=
  match answer with
  | Err error => error = NotFound text ∧ ∀ k v, m !! k = Some v → keep v = false
  | Ok l => l ≠ [] ∧ ∀ v, v ∈ l ↔ (∃ k, m !! k = Some v) ∧ keep v = true
  end.

(** The campaign once [donorId] has accepted it, and the donor then. *)
Definition accepted_by (campaign : Campaign.t) (donorId : string) : Campaign.t :=
  {| Campaign.id := Campaign.id campaign;
     Campaign.charityId := Campaign.charityId campaign;
     Campaign.title := Campaign.title campaign;
     Campaign.description := Campaign.description campaign;
     Campaign.targetAmount := Campaign.targetAmount campaign;
     Campaign.totalReceived := Campaign.totalReceived campaign;
     Campaign.donors := Campaign.donors campaign ++ [donorId];
     Campaign.status := CampaignStatus.Accepted "Accepted";
     Campaign.creator := Campaign.creator campaign;
     Campaign.startedAt := Campaign.startedAt campaign |}.

Definition accepting (donor : DonorProfile.t) (campaignId : string) : DonorProfile.t :=
  {| DonorProfile.id := DonorProfile.id donor;
     DonorProfile.owner := DonorProfile.owner donor;
     DonorProfile.name := DonorProfile.name donor;
     DonorProfile.phoneNumber := DonorProfile.phoneNumber donor;
     DonorProfile.email := DonorProfile.email donor;
     DonorProfile.address := DonorProfile.address donor;
     DonorProfile.donationAmount := DonorProfile.donationAmount donor;
     DonorProfile.donations := DonorProfile.donations donor ++ [campaignId];
     DonorProfile.donationsCount := (DonorProfile.donationsCount donor + 1)%Z;
     DonorProfile.status := DonorProfile.status donor;
     DonorProfile.joinedAt := DonorProfile.joinedAt donor |}.

(** The campaign once marked completed. *)
Definition completed (campaign : Campaign.t) : Campaign.t :=
  {| Campaign.id := Campaign.id campaign;
     Campaign.charityId := Campaign.charityId campaign;
     Campaign.title := Campaign.title campaign;
     Campaign.description := Campaign.description campaign;
     Campaign.targetAmount := Campaign.targetAmount campaign;
     Campaign.totalReceived := Campaign.totalReceived campaign;
     Campaign.donors := Campaign.donors campaign;
     Campaign.status := CampaignStatus.Completed "Completed";
     Campaign.creator := Campaign.creator campaign;
     Campaign.startedAt := Campaign.startedAt campaign |}.

(** The campaign after its creator updated it with [payload]. *)
Definition updated_with (campaign : Campaign.t) (payload : CampaignPayload.t)
    : Campaign.t :=
  {| Campaign.id := Campaign.id campaign;
     Campaign.charityId := CampaignPayload.charityId payload;
     Campaign.title := CampaignPayload.title payload;
     Campaign.description := CampaignPayload.description payload;
     Campaign.targetAmount := CampaignPayload.targetAmount payload;
     Campaign.totalReceived := Campaign.totalReceived campaign;
     Campaign.donors := Campaign.donors campaign;
     Campaign.status := Campaign.status campaign;
     Campaign.creator := Campaign.creator campaign;
     Campaign.startedAt := Campaign.startedAt campaign |}.

End Canister.

(** ** A platform and a scenario to run the canister on

    The properties below hold on every platform; this one serves to
    evaluate the canister on concrete calls. Its [!==] is that of two
    [Principal] objects that are never one object, one read from a store and
    one returned by [ic.caller()]: it holds always. Its hash adds the bytes
    up, so that it maps some addresses to one value, as a hash with fewer
    values than there are addresses must. *)

Definition sample_hashCode_value (v : JsValue) : Z :=
  match v with
  | JsString s => Z.of_nat (String.length s) + 7
  | JsBytes a => foldr (λ b acc, Z.of_N (Byte.to_N b) + acc) 11 a
  | JsUndefined => 0
  end%Z.

Definition sample_platform : Platform :=
  {| hashCode_value := sample_hashCode_value;
     binaryAddressFromPrincipal := λ p _, String.list_byte_of_string (toText p);
     strict_neq := λ _ _, true;
     emailRegex_test := λ s, bool_decide (is_Some (String.index 0 "@" s));
     nat64_error := λ n, "Error: not a nat64: " +:+ pretty n |}.

Definition alice : Principal := PrincipalFromText "alice".
Definition bob : Principal := PrincipalFromText "bob".
Definition mallory : Principal := PrincipalFromText "mallory".

(** [eve], whose address has the bytes of that of [alice] in another order. *)
Definition eve : Principal := PrincipalFromText "ecila".

Definition no_blocks : Z → Z → CallResult (list Ledger.Block) := λ _ _, Answered [].

Definition env_donor : Env := mkEnv alice 1000 "donor-1" "2024-01-01T00:00:00.000Z" no_blocks.
Definition env_charity : Env := mkEnv bob 2000 "charity-1" "2024-01-02T00:00:00.000Z" no_blocks.
Definition env_campaign : Env := mkEnv bob 3000 "campaign-1" "2024-01-03T00:00:00.000Z" no_blocks.
Definition env_reserve : Env := mkEnv alice 4000 "donation-1" "2024-01-04T00:00:00.000Z" no_blocks.

Definition donor_payload : DonorProfilePayload.t :=
  DonorProfilePayload.mk "Alice" "555-0100" "alice@example.org" "1 Main Street".

Definition charity_payload : CharityProfilePayload.t :=
  CharityProfilePayload.mk "Wells" "555-0101" "wells@example.org" "2 Main Street" "Clean water".

Definition campaign_payload : CampaignPayload.t :=
  CampaignPayload.mk "charity-1" "A well" "One well for one village" 1000.

Definition donation_payload : DonationPayload.t :=
  DonationPayload.mk "donor-1" "charity-1" "campaign-1" 100.

(** The stores after a donor, a charity and a campaign were created. *)
Definition state_donor : State :=
  (createDonorProfile (H := sample_platform) env_donor donor_payload init_state).2.
Definition state_charity : State :=
  (createCharityProfile (H := sample_platform) env_charity charity_payload state_donor).2.
Definition state_campaign : State :=
  (createCampaign env_campaign campaign_payload state_charity).2.

(** ... and after [alice] reserved a donation of 100. *)
Definition state_reserved : State :=
  (reserveDonation (H := sample_platform) env_reserve donation_payload state_campaign).2.

Definition sample_memo : Z :=
  generateCorrelationId (H := sample_platform) env_reserve "donor-1".

(** The ledger block in which [from] pays [amount] to [to] under [memo]. *)
Definition transfer_block (P : Platform) (from to : Principal) (amount memo : Z)
    : Ledger.Block :=
  Ledger.mkBlock
    (Ledger.mkTransaction memo
       (Some (Ledger.Transfer (binaryAddressFromPrincipal from 0)
                (binaryAddressFromPrincipal to 0)
                (Ledger.mkTokens amount) (Ledger.mkTokens 10000)))).

(** A call by somebody who owns nothing in the canister. *)
Definition env_stranger : Env :=
  mkEnv mallory 6000 "unused" "2024-01-06T00:00:00.000Z" no_blocks.

(** A call by [who] at a time when block 5 of the ledger is [b]. *)
Definition env_paid (who : Principal) (b : Ledger.Block) : Env :=
  mkEnv who 5000 "unused" "2024-01-05T00:00:00.000Z"
    (λ start _, if (start =? 5)%Z then Answered [b] else Answered []).

(** A call by [alice] at a time when the ledger rejects the call to it. *)
Definition env_rejected : Env :=
  mkEnv alice 5000 "unused" "2024-01-05T00:00:00.000Z"
    (λ _ _, Rejected "Error: the ledger rejected the call").

(** What the scenario has stored. *)
Definition sample_donor : DonorProfile.t :=
  DonorProfile.mk "donor-1" alice "Alice" "555-0100" "alice@example.org"
    "1 Main Street" 0 [] 0 "Active" "2024-01-01T00:00:00.000Z".

Definition sample_charity : Charity.t :=
  Charity.mk "charity-1" bob "Wells" "555-0101" "wells@example.org"
    "2 Main Street" "Clean water" 0 [] 0 "Active" "2024-01-02T00:00:00.000Z".

Definition sample_campaign : Campaign.t :=
  Campaign.mk "campaign-1" "charity-1" "A well" "One well for one village" 1000 0 []
    (CampaignStatus.Pending "Pending") bob "2024-01-03T00:00:00.000Z".

Definition sample_reserve : Donation.t :=
  Donation.mk "donation-1" "donor-1" "charity-1" "campaign-1" alice bob 100
    (DonationStatus.PaymentPending "PaymentPending") "2024-01-04T00:00:00.000Z"
    None sample_memo.

(** [alice] calls after she paid [amount] to [bob] in block 5. *)
Definition env_alice_paid (amount : Z) : Env :=
  env_paid alice (transfer_block sample_platform alice bob amount sample_memo).

(** A payload that names a donor nobody created. *)
Definition unknown_donor_payload : DonationPayload.t :=
  DonationPayload.mk "donor-2" "charity-1" "campaign-1" 100.

(** A second donor, created while the reserve of the first is pending. *)
Definition env_donor2 : Env :=
  mkEnv mallory 4500 "donor-2" "2024-01-04T12:00:00.000Z" no_blocks.

Definition donor2_payload : DonorProfilePayload.t :=
  DonorProfilePayload.mk "Mallory" "555-0102" "mallory@example.org" "3 Main Street".

Definition state_two_donors : State :=
  (createDonorProfile (H := sample_platform) env_donor2 donor2_payload state_reserved).2.

Definition sample_donor2 : DonorProfile.t :=
  DonorProfile.mk "donor-2" mallory "Mallory" "555-0102" "mallory@example.org"
    "3 Main Street" 0 [] 0 "Active" "2024-01-04T12:00:00.000Z".

(** A second reserve of [alice], of 30, made later than the first. *)
Definition env_reserve_later : Env :=
  mkEnv alice 40000 "donation-2" "2024-01-04T18:00:00.000Z" no_blocks.

Definition donation_payload2 : DonationPayload.t :=
  DonationPayload.mk "donor-1" "charity-1" "campaign-1" 30.

Definition state_two_reserves : State :=
  (reserveDonation (H := sample_platform) env_reserve_later donation_payload2
     state_reserved).2.

Definition sample_memo2 : Z :=
  generateCorrelationId (H := sample_platform) env_reserve_later "donor-1".

Definition sample_reserve2 : Donation.t :=
  Donation.mk "donation-2" "donor-1" "charity-1" "campaign-1" alice bob 30
    (DonationStatus.PaymentPending "PaymentPending") "2024-01-04T18:00:00.000Z"
    None sample_memo2.

(** [alice] calls after she paid 30 to [bob] under the second memo. *)
Definition env_alice_paid2 : Env :=
  env_paid alice (transfer_block sample_platform alice bob 30 sample_memo2).

(** [alice] calls after [eve], not she, paid 100 to [bob] under the memo. *)
Definition env_eve_paid : Env :=
  env_paid alice (transfer_block sample_platform eve bob 100 sample_memo).

(** [alice] reserves and pays the largest [nat64], then reserves 1 more. *)
Definition max_nat64 : Z := 18446744073709551615.

Definition donation_payload_max : DonationPayload.t :=
  DonationPayload.mk "donor-1" "charity-1" "campaign-1" max_nat64.

Definition state_reserved_max : State :=
  (reserveDonation (H := sample_platform) env_reserve donation_payload_max
     state_campaign).2.

Definition state_completed_max : State :=
  (completeReserveDonation (H := sample_platform) (env_alice_paid max_nat64) bob
     "donor-1" max_nat64 5 sample_memo state_reserved_max).2.

Definition donation_payload_one : DonationPayload.t :=
  DonationPayload.mk "donor-1" "charity-1" "campaign-1" 1.

Definition state_reserved_one : State :=
  (reserveDonation (H := sample_platform) env_reserve_later donation_payload_one
     state_completed_max).2.

Definition sample_reserve_one : Donation.t :=
  Donation.mk "donation-2" "donor-1" "charity-1" "campaign-1" alice bob 1
    (DonationStatus.PaymentPending "PaymentPending") "2024-01-04T18:00:00.000Z"
    None sample_memo2.

Definition sample_donor_max : DonorProfile.t :=
  DonorProfile.mk "donor-1" alice "Alice" "555-0100" "alice@example.org"
    "1 Main Street" max_nat64 [] 0 "Active" "2024-01-01T00:00:00.000Z".

(** [alice] calls after she paid 1 to [bob] under the second memo. *)
Definition env_alice_paid_one : Env :=
  env_paid alice (transfer_block sample_platform alice bob 1 sample_memo2).

(** ** Properties *)

Section Properties.

Context `{Platform}.

(** Unfolds the plumbing of [M] and of the stores. *)
Ltac run :=
  unfold mbind, M_bind, mret, M_ret, fmap, M_fmap, throw, try_catch, await,
    StableBTreeMap.get, StableBTreeMap.insert, StableBTreeMap.remove,
    StableBTreeMap.values, discardByTimeout, ic_setTimer; simpl.

(** *** The stores as tables *)

Lemma pending_delete_absent s memo :
  pendingReserves s !! memo = None →
  mkState (donorProfileStorage s) (charityProfileStorage s) (campaignStorage s)
    (persistedReserves s) (delete memo (pendingReserves s))
    (donationReportStorage s) (timers s) = s.
Proof.
  intros Hnone. destruct s; simpl in *. by rewrite delete_id.
Qed.

(** A call that throws leaves the stores as it found them. *)
Lemma update_throws {A} (method : M A) s error :
  (update method s).1 = Throw error ↔ (method s).1 = Throw error.
Proof. unfold update. by destruct (method s) as [[a|e] s']. Qed.

Lemma update_thrown_state {A} (method : M A) s error :
  (update method s).1 = Throw error → (update method s).2 = s.
Proof. unfold update. by destruct (method s) as [[a|e] s']. Qed.

(** *** The ledger verifier *)

Lemma verifyPayment_matches_spec env receiver amount memo block :
  verifyPayment_matches env receiver amount memo block = true
  ↔ proves_payment env receiver amount memo block.
Proof.
  unfold verifyPayment_matches, proves_payment, same_hash.
  destruct (Ledger.operation (Ledger.transaction block)) as [op|]; simpl.
  - destruct op as [to tokens|from tokens|from to tokens fee]; simpl.
    + rewrite andb_false_r. split; [done|]. intros (?&?&?&?&?&_); done.
    + rewrite andb_false_r. split; [done|]. intros (?&?&?&?&?&_); done.
    + rewrite !andb_true_iff, !Z.eqb_eq. split.
      * intros [[[Hm Hf] Ht] Ha]. exists from, to, tokens, fee. by rewrite Ha.
      * intros (f&t&a&fe&Hop&Hm&Hf&Ht&Ha). by simplify_eq.
  - split; [done|]. intros (?&?&?&?&?&_); done.
Qed.

(** When the ledger answers, the verifier returns, and says [true] exactly
    when a block of the answer proves the payment. *)
Lemma verifyPaymentInternal_answered env receiver amount block memo blocks :
  query_blocks env block 1 = Answered blocks →
  ∃ verified,
    verifyPaymentInternal env receiver amount block memo = Normal verified
    ∧ (verified = true
       ↔ ∃ b, b ∈ blocks ∧ proves_payment env receiver amount memo b).
Proof.
  intros Hanswer. unfold verifyPaymentInternal. rewrite Hanswer.
  eexists. split; [done|].
  destruct (find _ _) as [b|] eqn:Hfind.
  - apply find_some in Hfind as [Hin Hb]. split; [intros _|done].
    exists b. split; [by apply list_elem_of_In|by apply verifyPayment_matches_spec].
  - split; [done|]. intros (b & Hin & Hb).
    apply list_elem_of_In in Hin.
    apply (find_none _ _ Hfind) in Hin.
    apply verifyPayment_matches_spec in Hb. congruence.
Qed.

(** When the ledger rejects the call, the verifier throws. *)
Lemma verifyPaymentInternal_throws env receiver amount block memo error :
  verifyPaymentInternal env receiver amount block memo = Throw error
  ↔ query_blocks env block 1 = Rejected error.
Proof.
  unfold verifyPaymentInternal.
  destruct (query_blocks env block 1) as [blocks|e]; split; congruence.
Qed.

Lemma verifyPaymentInternal_true env receiver amount block memo :
  verifyPaymentInternal env receiver amount block memo = Normal true
  ↔ ∃ blocks,
      query_blocks env block 1 = Answered blocks
      ∧ ∃ b, b ∈ blocks ∧ proves_payment env receiver amount memo b.
Proof.
  split.
  - intros Hv. destruct (query_blocks env block 1) as [blocks|e] eqn:Hq.
    + exists blocks. split; [done|].
      destruct (verifyPaymentInternal_answered env receiver amount block memo blocks Hq)
        as (verified & Hrun & Hiff).
      apply Hiff. congruence.
    + apply (verifyPaymentInternal_throws env receiver amount block memo) in Hq.
      congruence.
  - intros (blocks & Hq & Hb).
    destruct (verifyPaymentInternal_answered env receiver amount block memo blocks Hq)
      as (verified & Hrun & Hiff).
    apply Hiff in Hb. by subst.
Qed.

(** No block in the answer, or a block without a transfer: not verified. *)
Lemma verifyPaymentInternal_no_block env receiver amount block memo :
  query_blocks env block 1 = Answered [] →
  verifyPaymentInternal env receiver amount block memo = Normal false.
Proof.
  intros Hnil.
  destruct (verifyPaymentInternal_answered env receiver amount block memo [] Hnil)
    as ([] & Hrun & Hiff); [|done].
  destruct (proj1 Hiff eq_refl) as (b & Hin & _). by apply not_elem_of_nil in Hin.
Qed.

Lemma verifyPaymentInternal_no_transfer env receiver amount block memo blocks :
  query_blocks env block 1 = Answered blocks →
  (∀ b, b ∈ blocks →
        (Ledger.operation (Ledger.transaction b) ≫= Ledger.Transfer_of) = None) →
  verifyPaymentInternal env receiver amount block memo = Normal false.
Proof.
  intros Hq Hnone.
  destruct (verifyPaymentInternal_answered env receiver amount block memo blocks Hq)
    as ([] & Hrun & Hiff); [|done].
  destruct (proj1 Hiff eq_refl) as (b & Hin & from & to & tokens & fee & Hop & _).
  specialize (Hnone b Hin). by rewrite Hop in Hnone.
Qed.

(** An address has the hash of itself; when [hash] tells the addresses apart
    nothing else has. *)
Lemma same_hash_refl a : same_hash a a.
Proof. done. Qed.

Lemma same_hash_eq a b :
  (∀ x y, hash (JsBytes x) = hash (JsBytes y) → x = y) →
  same_hash a b ↔ a = b.
Proof.
  intros Hinj. split; [apply Hinj|]. intros ->. apply same_hash_refl.
Qed.

(** *** The six ways [completeReserveDonation] ends *)

Ltac complete_run Hv :=
  unfold completeReserveDonation, update, completeReserveDonation_callback,
    donorProfileStorage_insert;
  run; rewrite Hv; simpl.

Lemma complete_rejected env reservor donorId reservePrice block memo s error :
  verifyPaymentInternal env reservor reservePrice block memo = Throw error →
  completeReserveDonation env reservor donorId reservePrice block memo s
  = (Throw error, s).
Proof. intros Hv. by complete_run Hv. Qed.

Lemma complete_unverified env reservor donorId reservePrice block memo s :
  verifyPaymentInternal env reservor reservePrice block memo = Normal false →
  completeReserveDonation env reservor donorId reservePrice block memo s
  = (Normal (Err (NotFound
       ("Cannot complete the donation reserve: cannot verify the payment, memo="
        +:+ pretty memo))), s).
Proof. intros Hv. by complete_run Hv. Qed.

Lemma complete_no_pending env reservor donorId reservePrice block memo s :
  verifyPaymentInternal env reservor reservePrice block memo = Normal true →
  pendingReserves s !! memo = None →
  completeReserveDonation env reservor donorId reservePrice block memo s
  = (Normal (Err (NotFound
       ("Cannot complete the donation reserve: there is no pending reserve with id="
        +:+ donorId))), s).
Proof.
  intros Hv Hp. complete_run Hv. rewrite Hp. by rewrite pending_delete_absent.
Qed.

Lemma complete_no_donor env reservor donorId reservePrice block memo s reserve :
  verifyPaymentInternal env reservor reservePrice block memo = Normal true →
  pendingReserves s !! memo = Some reserve →
  donorProfileStorage s !! donorId = None →
  completeReserveDonation env reservor donorId reservePrice block memo s
  = (Throw ("Error: Donor with id=" +:+ donorId +:+ " not found"), s).
Proof.
  intros Hv Hp Hd. complete_run Hv. rewrite Hp; simpl. by rewrite Hd.
Qed.

Lemma complete_overflow env reservor donorId reservePrice block memo s reserve donor :
  verifyPaymentInternal env reservor reservePrice block memo = Normal true →
  pendingReserves s !! memo = Some reserve →
  donorProfileStorage s !! donorId = Some donor →
  nat64 (DonorProfile.donationAmount donor + reservePrice) = false →
  completeReserveDonation env reservor donorId reservePrice block memo s
  = (Throw (nat64_error (DonorProfile.donationAmount donor + reservePrice)), s).
Proof.
  intros Hv Hp Hd Hn. complete_run Hv. rewrite Hp; simpl. rewrite Hd; simpl.
  by rewrite Hn.
Qed.

Lemma complete_ok env reservor donorId reservePrice block memo s reserve donor :
  verifyPaymentInternal env reservor reservePrice block memo = Normal true →
  pendingReserves s !! memo = Some reserve →
  donorProfileStorage s !! donorId = Some donor →
  nat64 (DonorProfile.donationAmount donor + reservePrice) = true →
  completeReserveDonation env reservor donorId reservePrice block memo s
  = (Normal (Ok (paid reserve block)),
     mkState
       (<[DonorProfile.id donor := credited donor reservePrice]> (donorProfileStorage s))
       (charityProfileStorage s) (campaignStorage s)
       (<[caller env := paid reserve block]> (persistedReserves s))
       (delete memo (pendingReserves s))
       (donationReportStorage s) (timers s)).
Proof.
  intros Hv Hp Hd Hn. complete_run Hv. rewrite Hp; simpl. rewrite Hd; simpl.
  by rewrite Hn.
Qed.

(** *** The invariants hold in every reachable state *)

Lemma well_formed_init : well_formed init_state.
Proof. split_and!; intros ? ? Hl; simpl in Hl; by rewrite lookup_empty in Hl. Qed.

Ltac invariant_cases :=
  lazymatch goal with
  | Hl : <[_ := _]> _ !! _ = Some _ |- _ =>
      apply lookup_insert_Some in Hl as [[<- <-]|[? Hl]]; simpl
  | Hl : delete _ _ !! _ = Some _ |- _ =>
      apply lookup_delete_Some in Hl as [? Hl]
  | _ => idtac
  end.

(** Every call keeps the invariants, whether it returns or throws. *)
Lemma well_formed_step env call s :
  well_formed s → uuid env ≠ "" → well_formed (dispatch env call s).2.
Proof.
  intros (Hd & Hc & Hk & Hp) Huuid.
  destruct call; unfold dispatch, update;
    unfold createDonorProfile, updateDonorProfile, deleteDonorProfile,
      createCharityProfile, updateCharityProfile, deleteCharityProfile,
      createCampaign, updateCampaign, deleteCampaignById, completeCampaign,
      acceptCampaign, reserveDonation, completeReserveDonation, update,
      completeReserveDonation_callback, donorProfileStorage_insert,
      createDonationReport, timerFires, discardByTimeout_callback;
    run; repeat (case_match; simpl in *; simplify_eq); try done.
  all: split_and!; try assumption.
  all: intros ? ? Hl; simpl in Hl; invariant_cases.
  all: try first [done | by eauto | by (eapply Hd; eauto) | by (eapply Hp; eauto)].
  match goal with Hl : donorProfileStorage s !! _ = Some _ |- _ =>
    destruct (Hd _ _ Hl) as [-> ?] end.
  done.
Qed.

Lemma reachable_well_formed s : reachable s → well_formed s.
Proof.
  induction 1 as [|env call s _ IH Huuid].
  - apply well_formed_init.
  - by apply well_formed_step.
Qed.

(** *** Completing a reserve *)

(** What a successful completion returns and writes, for any price. *)
Lemma complete_credits env reservor donorId reservePrice block memo s reserve donor :
  donor_keys_ok s →
  verifyPaymentInternal env reservor reservePrice block memo = Normal true →
  pendingReserves s !! memo = Some reserve →
  donorProfileStorage s !! donorId = Some donor →
  nat64 (DonorProfile.donationAmount donor + reservePrice) = true →
  ∃ s',
    completeReserveDonation env reservor donorId reservePrice block memo s
    = (Normal (Ok (paid reserve block)), s')
    ∧ donorProfileStorage s' !! donorId = Some (credited donor reservePrice)
    ∧ pendingReserves s' !! memo = None
    ∧ persistedReserves s' !! caller env = Some (paid reserve block).
Proof.
  intros Hkeys Hv Hp Hd Hn. eexists. split; [by eapply complete_ok|]. simpl.
  destruct (Hkeys _ _ Hd) as [-> _].
  by rewrite !lookup_insert_eq, lookup_delete_eq.
Qed.

(** A call that throws has written nothing. *)
Lemma complete_thrown_state env reservor donorId reservePrice block memo s error :
  (completeReserveDonation env reservor donorId reservePrice block memo s).1
  = Throw error →
  (completeReserveDonation env reservor donorId reservePrice block memo s).2 = s.
Proof. apply update_thrown_state. Qed.

(** After a verified call that returned, the memo is no longer pending. *)
Lemma complete_returned_consumes_memo
    env reservor donorId reservePrice block memo s result :
  verifyPaymentInternal env reservor reservePrice block memo = Normal true →
  (completeReserveDonation env reservor donorId reservePrice block memo s).1
  = Normal result →
  pendingReserves
    (completeReserveDonation env reservor donorId reservePrice block memo s).2
    !! memo = None.
Proof.
  intros Hv.
  destruct (pendingReserves s !! memo) as [reserve|] eqn:Hp.
  - destruct (donorProfileStorage s !! donorId) as [donor|] eqn:Hd.
    + destruct (nat64 (DonorProfile.donationAmount donor + reservePrice)) eqn:Hn.
      * erewrite complete_ok by done. simpl. intros _. apply lookup_delete_eq.
      * by erewrite complete_overflow.
    + by erewrite complete_no_donor.
  - by erewrite complete_no_pending.
Qed.

(** C1, as the canister has it. In a reachable state that holds a pending
    reserve of a donor who exists, [completeReserveDonation] called with the
    memo and the amount of that reserve, when the ledger verifies the payment:
    when the donor's [donationAmount] plus the reserved amount is a [nat64],
    it returns a donation whose status is [Completed] and whose
    [paid_at_block] is [Some block], and the donor's [donationAmount] has
    grown by exactly the reserved amount; when that sum is no [nat64], the
    call throws and the stores are as before. *)
Theorem complete_after_reserve env s reservor block memo reserve donor :
  reachable s →
  pendingReserves s !! memo = Some reserve →
  donorProfileStorage s !! Donation.donorId reserve = Some donor →
  verifyPaymentInternal env reservor (Donation.amount reserve) block memo = Normal true →
  let total := (DonorProfile.donationAmount donor + Donation.amount reserve)%Z in
  (nat64 total = true →
   ∃ donation s',
     completeReserveDonation env reservor (Donation.donorId reserve)
       (Donation.amount reserve) block memo s
     = (Normal (Ok donation), s')
     ∧ Donation.status donation = DonationStatus.Completed "COMPLETED"
     ∧ Donation.paid_at_block donation = Some block
     ∧ ∃ donor',
         donorProfileStorage s' !! Donation.donorId reserve = Some donor'
         ∧ DonorProfile.donationAmount donor' = total)
  ∧ (nat64 total = false →
     completeReserveDonation env reservor (Donation.donorId reserve)
       (Donation.amount reserve) block memo s
     = (Throw (nat64_error total), s)).
Proof.
  intros Hreach Hp Hd Hv total. split; intros Hn.
  - destruct (reachable_well_formed _ Hreach) as (Hkeys & _).
    destruct (complete_credits _ _ _ _ _ _ _ _ _ Hkeys Hv Hp Hd Hn)
      as (s' & Hrun & Hd' & _).
    exists (paid reserve block), s'. split_and!; [done..|].
    by exists (credited donor (Donation.amount reserve)).
  - by eapply complete_overflow.
Qed.

(** C2, as the canister has it. When [completeReserveDonation] is called
    twice with the same memo and the ledger verifies the payment both times:
    if the first call returns, the memo is no longer pending after it and the
    second call fails with [NotFound]; if the first call throws, it has
    written nothing. So the two calls never both complete the reserve. *)
Theorem complete_at_most_once
    env1 reservor1 donorId1 reservePrice1 block1
    env2 reservor2 donorId2 reservePrice2 block2 memo s :
  verifyPaymentInternal env1 reservor1 reservePrice1 block1 memo = Normal true →
  verifyPaymentInternal env2 reservor2 reservePrice2 block2 memo = Normal true →
  let end1 := completeReserveDonation env1 reservor1 donorId1 reservePrice1 block1 memo s in
  (∀ result, end1.1 = Normal result →
     pendingReserves end1.2 !! memo = None
     ∧ ∃ text,
         completeReserveDonation env2 reservor2 donorId2 reservePrice2 block2 memo end1.2
         = (Normal (Err (NotFound text)), end1.2))
  ∧ (∀ error, end1.1 = Throw error → end1.2 = s)
  ∧ ∀ donation1 donation2 s2,
      end1.1 = Normal (Ok donation1) →
      completeReserveDonation env2 reservor2 donorId2 reservePrice2 block2 memo end1.2
      ≠ (Normal (Ok donation2), s2).
Proof.
  intros Hv1 Hv2 end1.
  assert (∀ result, end1.1 = Normal result →
            pendingReserves end1.2 !! memo = None
            ∧ ∃ text,
                completeReserveDonation env2 reservor2 donorId2 reservePrice2 block2
                  memo end1.2
                = (Normal (Err (NotFound text)), end1.2)) as Hreturned.
  { intros result Hresult.
    assert (pendingReserves end1.2 !! memo = None) as Hgone
      by by eapply complete_returned_consumes_memo.
    split; [done|]. eexists. by apply complete_no_pending. }
  split_and!.
  - done.
  - apply complete_thrown_state.
  - intros donation1 donation2 s2 Hresult Hsecond.
    destruct (Hreturned _ Hresult) as (_ & text & Hnotfound). congruence.
Qed.

(** C3. When the ledger does not verify the payment, [completeReserveDonation]
    returns a [NotFound] error and leaves every store as it was: the pending
    reserves, the donors and the completed donations among them. A retry that
    the ledger verifies then completes the reserve that is still pending, when
    the donor's [donationAmount] plus the price is a [nat64]. *)
Theorem complete_unverified_keeps_state env reservor donorId reservePrice block memo s :
  verifyPaymentInternal env reservor reservePrice block memo = Normal false →
  (∃ text,
     completeReserveDonation env reservor donorId reservePrice block memo s
     = (Normal (Err (NotFound text)), s))
  ∧ ∀ env' block' reserve donor,
      reachable s →
      pendingReserves s !! memo = Some reserve →
      donorProfileStorage s !! donorId = Some donor →
      nat64 (DonorProfile.donationAmount donor + reservePrice) = true →
      verifyPaymentInternal env' reservor reservePrice block' memo = Normal true →
      ∃ donation s',
        completeReserveDonation env' reservor donorId reservePrice block' memo
          (completeReserveDonation env reservor donorId reservePrice block memo s).2
        = (Normal (Ok donation), s').
Proof.
  intros Hv. split; [eexists; by apply complete_unverified|].
  intros env' block' reserve donor Hreach Hp Hd Hn Hv'.
  rewrite (complete_unverified _ _ donorId _ _ _ s Hv). simpl.
  destruct (reachable_well_formed _ Hreach) as (Hkeys & _).
  destruct (complete_credits _ _ _ _ _ _ _ _ _ Hkeys Hv' Hp Hd Hn) as (s' & Hrun & _).
  by exists (paid reserve block'), s'.
Qed.

(** C4, as the canister has it. When the ledger answers the query,
    [verifyPayment] returns, and it returns [true] exactly when a block of the
    answer carries a transfer whose transaction memo equals the given memo,
    whose amount equals [amount], and whose source and destination have the
    hash values of the address of the caller and of the address of
    [receiver]; so it returns [false] when no block is returned, when the
    block has no transfer and when one of these comparisons fails. When the
    ledger rejects the call, [verifyPayment] throws. *)
Theorem verifyPayment_spec env receiver amount block memo :
  match query_blocks env block 1 with
  | Answered blocks =>
      ∃ verified,
        verifyPayment env receiver amount block memo = Normal verified
        ∧ (verified = true
           ↔ ∃ b, b ∈ blocks ∧ proves_payment env receiver amount memo b)
        ∧ (verified = false
           ↔ ∀ b, b ∈ blocks → ¬ proves_payment env receiver amount memo b)
  | Rejected error => verifyPayment env receiver amount block memo = Throw error
  end.
Proof.
  unfold verifyPayment.
  destruct (query_blocks env block 1) as [blocks|error] eqn:Hq.
  - destruct (verifyPaymentInternal_answered env receiver amount block memo blocks Hq)
      as (verified & Hrun & Hiff).
    exists verified. split_and!; [done..|].
    rewrite <- not_true_iff_false, Hiff. split.
    + intros Hnone b Hin Hb. apply Hnone. by exists b.
    + intros Hall (b & Hin & Hb). by apply (Hall b).
  - by apply verifyPaymentInternal_throws.
Qed.

(** *** Reserving a donation *)

Lemma truthy_nonempty (text : string) : text ≠ "" → truthy text = true.
Proof.
  intros Hne. unfold truthy. by apply negb_true_iff, String.eqb_neq.
Qed.

(** C5. With a non-empty [donorId], [charityId] and [campaignId],
    [reserveDonation] fails with [NotFound] as soon as the donor, the charity
    or the campaign is not stored; it looks for the donor first, then for the
    charity, then for the campaign, and names the first one that is missing;
    the stores are left as they were. *)
Theorem reserveDonation_not_found env payload s :
  DonationPayload.donorId payload ≠ "" →
  DonationPayload.charityId payload ≠ "" →
  DonationPayload.campaignId payload ≠ "" →
  (donorProfileStorage s !! DonationPayload.donorId payload = None →
   reserveDonation env payload s
   = (Normal (Err (NotFound ("Cannot reserve donation: Donor with id="
                             +:+ DonationPayload.donorId payload +:+ " not found"))), s))
  ∧ (is_Some (donorProfileStorage s !! DonationPayload.donorId payload) →
     charityProfileStorage s !! DonationPayload.charityId payload = None →
     reserveDonation env payload s
     = (Normal (Err (NotFound ("Cannot reserve donation: Charity with id="
                               +:+ DonationPayload.charityId payload +:+ " not found"))), s))
  ∧ (is_Some (donorProfileStorage s !! DonationPayload.donorId payload) →
     is_Some (charityProfileStorage s !! DonationPayload.charityId payload) →
     campaignStorage s !! DonationPayload.campaignId payload = None →
     reserveDonation env payload s
     = (Normal (Err (NotFound ("Cannot reserve donation: Campaign with id="
                               +:+ DonationPayload.campaignId payload +:+ " not found"))), s)).
Proof.
  intros Hd Hc Hk. unfold reserveDonation.
  rewrite !truthy_nonempty by done. run.
  split_and!.
  - by intros ->.
  - by intros [donor ->] ->.
  - by intros [donor ->] [charity ->] ->.
Qed.

(** C6. In a reachable state, for a payload whose donor, charity and campaign
    are stored, [reserveDonation] returns a reserve whose status is
    [PaymentPending], whose [donator] is the owner of the donor, whose
    [receiver] is the creator of the campaign and whose [memo] is
    [generateCorrelationId] of the donor id; that reserve is then the pending
    reserve of that memo, and a timer is armed to discard it. *)
Theorem reserveDonation_ok env payload s donor (charity : Charity.t) campaign :
  reachable s →
  donorProfileStorage s !! DonationPayload.donorId payload = Some donor →
  charityProfileStorage s !! DonationPayload.charityId payload = Some charity →
  campaignStorage s !! DonationPayload.campaignId payload = Some campaign →
  ∃ reserve s',
    reserveDonation env payload s = (Normal (Ok reserve), s')
    ∧ Donation.status reserve = DonationStatus.PaymentPending "PaymentPending"
    ∧ Donation.donator reserve = DonorProfile.owner donor
    ∧ Donation.receiver reserve = Campaign.creator campaign
    ∧ Donation.memo reserve = generateCorrelationId env (DonationPayload.donorId payload)
    ∧ pendingReserves s' !! Donation.memo reserve = Some reserve
    ∧ timers s' = (timers s ++ [(TIMEOUT_PERIOD, Donation.memo reserve)])%list.
Proof.
  intros Hreach Hd Hc Hk.
  destruct (reachable_well_formed _ Hreach) as (Hdk & Hck & Hkk & _).
  destruct (Hdk _ _ Hd) as [_ Hdne].
  pose proof (Hck _ _ Hc) as Hcne. pose proof (Hkk _ _ Hk) as Hkne.
  unfold reserveDonation. rewrite !truthy_nonempty by done. run.
  rewrite Hd, Hc, Hk. do 2 eexists. split; [done|]. simpl.
  split_and!; try done. apply lookup_insert_eq.
Qed.

(** What a successful [reserveDonation] has read and written. *)
Lemma reserveDonation_inv env payload s reserve s1 :
  reserveDonation env payload s = (Normal (Ok reserve), s1) →
  is_Some (donorProfileStorage s !! DonationPayload.donorId payload)
  ∧ donorProfileStorage s1 = donorProfileStorage s
  ∧ pendingReserves s1 !! Donation.memo reserve = Some reserve
  ∧ Donation.donorId reserve = DonationPayload.donorId payload
  ∧ Donation.amount reserve = DonationPayload.amount payload.
Proof.
  unfold reserveDonation. run.
  repeat (case_match; simpl in *; simplify_eq); try done.
  intros [= <- <-]. simpl. split_and!; try done. apply lookup_insert_eq.
Qed.

(** [reserveDonation], then [completeReserveDonation] with a payment that the
    ledger verifies: the donation is completed and the donor has given the
    reserved amount more, when that fits a [nat64]. *)
Lemma reserve_then_complete env_reserve env_complete payload s reserve s1 reservor block :
  reachable s →
  reserveDonation env_reserve payload s = (Normal (Ok reserve), s1) →
  verifyPaymentInternal env_complete reservor (DonationPayload.amount payload) block
    (Donation.memo reserve) = Normal true →
  ∃ donor,
    donorProfileStorage s !! DonationPayload.donorId payload = Some donor
    ∧ (nat64 (DonorProfile.donationAmount donor + DonationPayload.amount payload) = true →
       ∃ s2,
         completeReserveDonation env_complete reservor (DonationPayload.donorId payload)
           (DonationPayload.amount payload) block (Donation.memo reserve) s1
         = (Normal (Ok (paid reserve block)), s2)
         ∧ donorProfileStorage s2 !! DonationPayload.donorId payload
           = Some (credited donor (DonationPayload.amount payload))).
Proof.
  intros Hreach Hres Hv.
  destruct (reachable_well_formed _ Hreach) as (Hkeys & _).
  destruct (reserveDonation_inv _ _ _ _ _ Hres) as ([donor Hd] & Hsame & Hp & _).
  assert (donor_keys_ok s1) as Hkeys1.
  { intros k d. rewrite Hsame. apply Hkeys. }
  exists donor. split; [done|]. intros Hn.
  rewrite <- Hsame in Hd.
  destruct (complete_credits _ _ _ _ _ _ _ _ _ Hkeys1 Hv Hp Hd Hn) as (s2 & Hrun & Hd2 & _).
  by exists s2.
Qed.

(** *** The expiry of a reserve *)

(** C7, as the canister has it. The callback armed by [discardByTimeout] only
    removes the pending reserve of its memo and never fails; it changes
    nothing when that memo is not pending, so also after a verified
    [completeReserveDonation] with that memo has returned; once it has run, a
    [completeReserveDonation] with that memo fails with [NotFound] whenever
    the ledger answers, and throws, writing nothing, when the ledger rejects
    the call: it never completes. *)
Theorem discard_callback_spec memo s :
  discardByTimeout_callback memo s
  = (Normal (),
     mkState (donorProfileStorage s) (charityProfileStorage s) (campaignStorage s)
       (persistedReserves s) (delete memo (pendingReserves s))
       (donationReportStorage s) (timers s))
  ∧ (pendingReserves s !! memo = None →
     discardByTimeout_callback memo s = (Normal (), s))
  ∧ (∀ env reservor donorId reservePrice block result,
       verifyPaymentInternal env reservor reservePrice block memo = Normal true →
       let end1 := completeReserveDonation env reservor donorId reservePrice block memo s in
       end1.1 = Normal result →
       discardByTimeout_callback memo end1.2 = (Normal (), end1.2))
  ∧ (∀ env reservor donorId reservePrice block,
       let s1 := (discardByTimeout_callback memo s).2 in
       match query_blocks env block 1 with
       | Answered _ =>
           ∃ text,
             completeReserveDonation env reservor donorId reservePrice block memo s1
             = (Normal (Err (NotFound text)), s1)
       | Rejected error =>
           completeReserveDonation env reservor donorId reservePrice block memo s1
           = (Throw error, s1)
       end).
Proof.
  assert (∀ s0, pendingReserves s0 !! memo = None →
                discardByTimeout_callback memo s0 = (Normal (), s0)) as Hnoop.
  { intros s0 Hnone. unfold discardByTimeout_callback. run.
    by rewrite pending_delete_absent. }
  split_and!.
  - done.
  - apply Hnoop.
  - intros env reservor donorId reservePrice block result Hv end1 Hresult.
    apply Hnoop. by eapply complete_returned_consumes_memo.
  - intros env reservor donorId reservePrice block s1.
    assert (pendingReserves s1 !! memo = None) as Hgone by apply lookup_delete_eq.
    destruct (query_blocks env block 1) as [blocks|error] eqn:Hq.
    + destruct (verifyPaymentInternal_answered env reservor reservePrice block memo
                  blocks Hq) as ([] & Hv & _).
      * eexists. by apply complete_no_pending.
      * eexists. by apply complete_unverified.
    + apply complete_rejected. by apply verifyPaymentInternal_throws.
Qed.

(** The timer that [reserveDonation] arms runs that callback when it fires. *)
Lemma timerFires_last delay memo s :
  timerFires (length (timers s))
    (mkState (donorProfileStorage s) (charityProfileStorage s) (campaignStorage s)
       (persistedReserves s) (pendingReserves s) (donationReportStorage s)
       (timers s ++ [(delay, memo)])%list)
  = discardByTimeout_callback memo s.
Proof.
  unfold timerFires. simpl.
  rewrite lookup_app_r, Nat.sub_diag by done. simpl.
  destruct s as [d c k p q r t]; simpl. do 3 f_equal.
  induction t as [|x t IH]; [done|]. simpl. by f_equal.
Qed.

(** *** Results and exceptions *)

Lemma fmap_throws {A B} (f : A → B) (m : M A) s error :
  ((f <$> m) s).1 = Throw error ↔ (m s).1 = Throw error.
Proof.
  unfold fmap, M_fmap. destruct (m s) as [[a|e] s']; simpl; [split; done|].
  split; congruence.
Qed.

Ltac never_throws :=
  intros; run; repeat (case_match; simpl in *; simplify_eq); done.

Lemma createDonorProfile_returns env payload s error :
  (createDonorProfile env payload s).1 ≠ Throw error.
Proof. unfold createDonorProfile. never_throws. Qed.

Lemma updateDonorProfile_returns env donorId payload s error :
  (updateDonorProfile env donorId payload s).1 ≠ Throw error.
Proof. unfold updateDonorProfile. never_throws. Qed.

Lemma deleteDonorProfile_returns env donorId s error :
  (deleteDonorProfile env donorId s).1 ≠ Throw error.
Proof. unfold deleteDonorProfile. never_throws. Qed.

Lemma createCharityProfile_returns env payload s error :
  (createCharityProfile env payload s).1 ≠ Throw error.
Proof. unfold createCharityProfile. never_throws. Qed.

Lemma updateCharityProfile_returns env charityId payload s error :
  (updateCharityProfile env charityId payload s).1 ≠ Throw error.
Proof. unfold updateCharityProfile. never_throws. Qed.

Lemma deleteCharityProfile_returns env charityId s error :
  (deleteCharityProfile env charityId s).1 ≠ Throw error.
Proof. unfold deleteCharityProfile. never_throws. Qed.

Lemma createCampaign_returns env payload s error :
  (createCampaign env payload s).1 ≠ Throw error.
Proof. unfold createCampaign. never_throws. Qed.

Lemma updateCampaign_returns env campaignId payload s error :
  (updateCampaign env campaignId payload s).1 ≠ Throw error.
Proof. unfold updateCampaign. never_throws. Qed.

Lemma deleteCampaignById_returns env campaignId s error :
  (deleteCampaignById env campaignId s).1 ≠ Throw error.
Proof. unfold deleteCampaignById. never_throws. Qed.

Lemma completeCampaign_returns env campaignId s error :
  (completeCampaign env campaignId s).1 ≠ Throw error.
Proof. unfold completeCampaign. never_throws. Qed.

Lemma acceptCampaign_returns env donorId campaignId s error :
  (acceptCampaign env donorId campaignId s).1 ≠ Throw error.
Proof. unfold acceptCampaign. never_throws. Qed.

Lemma reserveDonation_returns env payload s error :
  (reserveDonation env payload s).1 ≠ Throw error.
Proof. unfold reserveDonation. never_throws. Qed.

Lemma createDonationReport_returns env payload s error :
  (createDonationReport env payload s).1 ≠ Throw error.
Proof. unfold createDonationReport. never_throws. Qed.

Lemma timerFires_returns i s error : (timerFires i s).1 ≠ Throw error.
Proof. unfold timerFires, discardByTimeout_callback. never_throws. Qed.

(** When [completeReserveDonation] throws. *)
Lemma completeReserveDonation_throws env reservor donorId reservePrice block memo s error :
  (completeReserveDonation env reservor donorId reservePrice block memo s).1 = Throw error
  ↔ query_blocks env block 1 = Rejected error
    ∨ (verifyPaymentInternal env reservor reservePrice block memo = Normal true
       ∧ is_Some (pendingReserves s !! memo)
       ∧ (donorProfileStorage s !! donorId = None
          ∧ error = "Error: Donor with id=" +:+ donorId +:+ " not found"
          ∨ ∃ donor,
              donorProfileStorage s !! donorId = Some donor
              ∧ nat64 (DonorProfile.donationAmount donor + reservePrice) = false
              ∧ error = nat64_error (DonorProfile.donationAmount donor + reservePrice))).
Proof.
  rewrite <- (verifyPaymentInternal_throws env reservor reservePrice block memo).
  destruct (verifyPaymentInternal env reservor reservePrice block memo)
    as [[]|e] eqn:Hv.
  - destruct (pendingReserves s !! memo) as [reserve|] eqn:Hp.
    + destruct (donorProfileStorage s !! donorId) as [donor|] eqn:Hd.
      * destruct (nat64 (DonorProfile.donationAmount donor + reservePrice)) eqn:Hn.
        -- erewrite complete_ok by done. simpl. split; [done|].
           intros [?|(_ & _ & [[? _]|(d & [= <-] & ? & _)])]; congruence.
        -- erewrite complete_overflow by done. simpl. split.
           ++ intros [= <-]. right. split_and!; [done|by eexists|]. right. by exists donor.
           ++ intros [?|(_ & _ & [[? _]|(d & [= <-] & _ & ->)])]; congruence.
      * erewrite complete_no_donor by done. simpl. split.
        -- intros [= <-]. right. split_and!; [done|by eexists|]. by left.
        -- intros [?|(_ & _ & [[_ ->]|(d & ? & _)])]; congruence.
    + erewrite complete_no_pending by done. simpl. split; [done|].
      intros [?|(_ & [? ?] & _)]; congruence.
  - erewrite complete_unverified by done. simpl. split; [done|].
    intros [?|(? & _)]; congruence.
  - erewrite complete_rejected by done. simpl. split.
    + intros [= <-]. by left.
    + intros [?|(? & _)]; congruence.
Qed.

(** C8, as the canister has it. A call to the canister returns its tagged
    result, with these exceptions, all in [completeReserveDonation]: it
    throws when the ledger rejects the call; when the ledger verified the
    payment, the memo is pending and no donor is stored under [donorId]; and
    when the ledger verified the payment, the memo is pending, the donor is
    stored and its [donationAmount] plus the price is no [nat64]. A call that
    throws has written nothing. [verifyPayment] throws when the ledger
    rejects the call, and only then. *)
Theorem throws_only_in_completion env call s error :
  ((dispatch env call s).1 = Throw error
   ↔ ∃ reservor donorId reservePrice block memo,
       call = CompleteReserveDonation reservor donorId reservePrice block memo
       ∧ (query_blocks env block 1 = Rejected error
          ∨ (verifyPaymentInternal env reservor reservePrice block memo = Normal true
             ∧ is_Some (pendingReserves s !! memo)
             ∧ (donorProfileStorage s !! donorId = None
                ∧ error = "Error: Donor with id=" +:+ donorId +:+ " not found"
                ∨ ∃ donor,
                    donorProfileStorage s !! donorId = Some donor
                    ∧ nat64 (DonorProfile.donationAmount donor + reservePrice) = false
                    ∧ error
                      = nat64_error (DonorProfile.donationAmount donor + reservePrice)))))
  ∧ ((dispatch env call s).1 = Throw error → (dispatch env call s).2 = s)
  ∧ ∀ receiver amount block memo,
      verifyPayment env receiver amount block memo = Throw error
      ↔ query_blocks env block 1 = Rejected error.
Proof.
  split_and!.
  - split.
    + destruct call; unfold dispatch; rewrite update_throws, fmap_throws; intros Hthrow.
      13: {
        apply completeReserveDonation_throws in Hthrow.
        by exists reservor, donorId, reservePrice, block, memo. }
      all: exfalso; revert Hthrow.
      * apply createDonorProfile_returns.
      * apply updateDonorProfile_returns.
      * apply deleteDonorProfile_returns.
      * apply createCharityProfile_returns.
      * apply updateCharityProfile_returns.
      * apply deleteCharityProfile_returns.
      * apply createCampaign_returns.
      * apply updateCampaign_returns.
      * apply deleteCampaignById_returns.
      * apply completeCampaign_returns.
      * apply acceptCampaign_returns.
      * apply reserveDonation_returns.
      * apply createDonationReport_returns.
      * apply timerFires_returns.
    + intros (reservor & donorId & reservePrice & block & memo & -> & Hcases).
      unfold dispatch. rewrite update_throws, fmap_throws.
      by apply completeReserveDonation_throws.
  - unfold dispatch. apply update_thrown_state.
  - intros receiver amount block memo. apply verifyPaymentInternal_throws.
Qed.

(** *** Who may change a campaign *)

Section Ownership.

(** Two different principals are never the same object. *)
Hypothesis strict_neq_distinct : ∀ a b : Principal, a ≠ b → strict_neq a b = true.

Lemma updateCampaign_unauthorized env campaignId payload s campaign :
  campaignStorage s !! campaignId = Some campaign →
  Campaign.creator campaign ≠ caller env →
  updateCampaign env campaignId payload s = (Normal (Err (Error "Unauthorized")), s).
Proof.
  intros Hk Hne. unfold updateCampaign. run.
  by rewrite Hk, strict_neq_distinct.
Qed.

Lemma deleteCampaignById_unauthorized env campaignId s campaign :
  campaignStorage s !! campaignId = Some campaign →
  Campaign.creator campaign ≠ caller env →
  deleteCampaignById env campaignId s = (Normal (Err (Error "Unauthorized")), s).
Proof.
  intros Hk Hne. unfold deleteCampaignById. run.
  by rewrite Hk, strict_neq_distinct.
Qed.

End Ownership.

(** C9, where the canister departs from it. [updateCampaign] and
    [deleteCampaignById] turn away a caller who is not the creator, but
    [completeCampaign] never looks at the caller: called by anybody on a
    stored campaign it returns [Ok] and stores the campaign as [Completed]. *)
Theorem completeCampaign_any_caller env campaignId s campaign :
  campaignStorage s !! campaignId = Some campaign →
  ∃ updatedCampaign s',
    completeCampaign env campaignId s = (Normal (Ok updatedCampaign), s')
    ∧ Campaign.creator updatedCampaign = Campaign.creator campaign
    ∧ Campaign.status updatedCampaign = CampaignStatus.Completed "Completed"
    ∧ campaignStorage s' !! campaignId = Some updatedCampaign.
Proof.
  intros Hk. unfold completeCampaign. run. rewrite Hk.
  do 2 eexists. split; [done|]. simpl. split_and!; try done.
  apply lookup_insert_eq.
Qed.

(** *** What a completion reads *)

Lemma proves_own_transfer env receiver amount memo :
  proves_payment env receiver amount memo
    (transfer_block _ (caller env) receiver amount memo).
Proof.
  unfold proves_payment, transfer_block. simpl.
  do 4 eexists. by split_and!.
Qed.

(** C10. [completeReserveDonation] reads neither the [amount], nor the
    [receiver], nor the [donator] of the stored reserve: the donors it leaves
    and the way it ends are the same whatever these fields hold. The verifier
    is given [reservor], the caller and [reservePrice], none of them taken
    from the reserve. Every completion that succeeds credits the donor
    [reservePrice], whatever the [amount] of the reserve is. So there is a
    pending reserve of amount 100 and a verified call with the price 50 after
    which the donor has 50 more, not 100 more. *)
Theorem complete_credits_price_not_reserve :
  (∀ env reservor donorId reservePrice block memo s reserve donator receiver amount,
     pendingReserves s !! memo = Some reserve →
     let s_alt :=
       replace_pending s memo (with_payment_fields reserve donator receiver amount) in
     let end_ := completeReserveDonation env reservor donorId reservePrice block memo s in
     let end_alt :=
       completeReserveDonation env reservor donorId reservePrice block memo s_alt in
     donorProfileStorage end_alt.2 = donorProfileStorage end_.2
     ∧ (∀ donation, end_.1 = Normal (Ok donation) →
          end_alt.1 = Normal (Ok (with_payment_fields donation donator receiver amount)))
     ∧ (∀ error, end_.1 = Normal (Err error) → end_alt.1 = Normal (Err error))
     ∧ (∀ error, end_.1 = Throw error → end_alt.1 = Throw error))
  ∧ (∀ env reservor reservePrice block memo,
       verifyPaymentInternal env reservor reservePrice block memo = Normal true
       ↔ ∃ blocks,
           query_blocks env block 1 = Answered blocks
           ∧ ∃ b, b ∈ blocks ∧ proves_payment env reservor reservePrice memo b)
  ∧ (∀ env reservor donorId reservePrice block memo s reserve donor,
       donor_keys_ok s →
       verifyPaymentInternal env reservor reservePrice block memo = Normal true →
       pendingReserves s !! memo = Some reserve →
       donorProfileStorage s !! donorId = Some donor →
       nat64 (DonorProfile.donationAmount donor + reservePrice) = true →
       ∃ s' donor',
         completeReserveDonation env reservor donorId reservePrice block memo s
         = (Normal (Ok (paid reserve block)), s')
         ∧ donorProfileStorage s' !! donorId = Some donor'
         ∧ DonorProfile.donationAmount donor'
           = (DonorProfile.donationAmount donor + reservePrice)%Z)
  ∧ (∃ env reservor donorId block memo s reserve donor,
       well_formed s
       ∧ pendingReserves s !! memo = Some reserve
       ∧ donorProfileStorage s !! donorId = Some donor
       ∧ Donation.amount reserve = 100%Z
       ∧ verifyPaymentInternal env reservor 50 block memo = Normal true
       ∧ ∃ s' donor',
           completeReserveDonation env reservor donorId 50 block memo s
           = (Normal (Ok (paid reserve block)), s')
           ∧ donorProfileStorage s' !! donorId = Some donor'
           ∧ DonorProfile.donationAmount donor'
             = (DonorProfile.donationAmount donor + 50)%Z).
Proof.
  split_and!.
  - intros env reservor donorId reservePrice block memo s reserve donator receiver amount
      Hp s_alt end_ end_alt.
    assert (pendingReserves s_alt !! memo
            = Some (with_payment_fields reserve donator receiver amount)) as Hp_alt
      by apply lookup_insert_eq.
    subst end_ end_alt.
    destruct (verifyPaymentInternal env reservor reservePrice block memo)
      as [[]|e] eqn:Hv.
    + destruct (donorProfileStorage s !! donorId) as [donor|] eqn:Hd.
      * destruct (nat64 (DonorProfile.donationAmount donor + reservePrice)) eqn:Hn.
        -- rewrite (complete_ok _ _ _ _ _ _ s _ _ Hv Hp Hd Hn).
           rewrite (complete_ok _ _ _ _ _ _ s_alt _ _ Hv Hp_alt Hd Hn). simpl.
           split_and!; [done| |done..]. by intros donation [= <-].
        -- rewrite (complete_overflow _ _ _ _ _ _ s _ _ Hv Hp Hd Hn).
           by rewrite (complete_overflow _ _ _ _ _ _ s_alt _ _ Hv Hp_alt Hd Hn).
      * rewrite (complete_no_donor _ _ _ _ _ _ s _ Hv Hp Hd).
        by rewrite (complete_no_donor _ _ _ _ _ _ s_alt _ Hv Hp_alt Hd).
    + rewrite (complete_unverified _ _ donorId _ _ _ s Hv).
      by rewrite (complete_unverified _ _ donorId _ _ _ s_alt Hv).
    + rewrite (complete_rejected _ _ donorId _ _ _ s _ Hv).
      by rewrite (complete_rejected _ _ donorId _ _ _ s_alt _ Hv).
  - intros env reservor reservePrice block memo. apply verifyPaymentInternal_true.
  - intros env reservor donorId reservePrice block memo s reserve donor
      Hkeys Hv Hp Hd Hn.
    destruct (complete_credits _ _ _ _ _ _ _ _ _ Hkeys Hv Hp Hd Hn)
      as (s' & Hrun & Hd' & _).
    by exists s', (credited donor reservePrice).
  - set (donor := DonorProfile.mk "donor-1" alice "Alice" "555-0100"
                    "alice@example.org" "1 Main Street" 0 [] 0 "Active"
                    "2024-01-01T00:00:00.000Z").
    set (reserve := Donation.mk "donation-1" "donor-1" "charity-1" "campaign-1"
                      alice bob 100 (DonationStatus.PaymentPending "PaymentPending")
                      "2024-01-04T00:00:00.000Z" None 25).
    set (s := mkState {["donor-1" := donor]} ∅ ∅ ∅ {[25%Z := reserve]} ∅ []).
    set (env := env_paid alice (transfer_block _ alice bob 50 25)).
    assert (verifyPaymentInternal env bob 50 5 25 = Normal true) as Hv.
    { apply verifyPaymentInternal_true. eexists. split; [done|].
      eexists. split; [by apply list_elem_of_here|]. apply (proves_own_transfer env). }
    assert (pendingReserves s !! 25%Z = Some reserve) as Hp by apply lookup_singleton_eq.
    assert (donorProfileStorage s !! "donor-1" = Some donor) as Hd
      by apply lookup_singleton_eq.
    assert (well_formed s) as Hwf.
    { split_and!; intros k v Hl; simpl in Hl;
        try (by rewrite lookup_empty in Hl);
        apply lookup_singleton_Some in Hl as [<- <-]; done. }
    exists env, bob, "donor-1", 5%Z, 25%Z, s, reserve, donor.
    split_and!; try done.
    destruct Hwf as (Hkeys & _).
    destruct (complete_credits _ _ _ _ _ _ _ _ _ Hkeys Hv Hp Hd eq_refl)
      as (s' & Hrun & Hd' & _).
    by exists s', (credited donor 50).
Qed.

(** *** More invariants *)

Ltac step_cases :=
  unfold dispatch, update;
  unfold createDonorProfile, updateDonorProfile, deleteDonorProfile,
    createCharityProfile, updateCharityProfile, deleteCharityProfile,
    createCampaign, updateCampaign, deleteCampaignById, completeCampaign,
    acceptCampaign, reserveDonation, completeReserveDonation, update,
    completeReserveDonation_callback, donorProfileStorage_insert,
    createDonationReport, timerFires, discardByTimeout_callback;
  run; repeat (case_match; simpl in *; simplify_eq); try done.

Lemma ids_ok_step env call s : ids_ok s → ids_ok (dispatch env call s).2.
Proof.
  intros (Hc & Hk & Hr).
  destruct call; step_cases.
  all: split_and!; try assumption.
  all: intros ? ? Hl; simpl in Hl; invariant_cases.
  all: first [done | by eauto].
Qed.

Lemma aggregates_ok_step env call s :
  aggregates_ok s → aggregates_ok (dispatch env call s).2.
Proof.
  intros (Hd & Hc & Hk).
  destruct call; step_cases.
  all: split_and!; try assumption.
  all: intros ? ? Hl; simpl in Hl; invariant_cases.
  all: try first [done | by eauto].
  match goal with Hl : donorProfileStorage s !! _ = Some _ |- _ =>
    rewrite (Hd _ _ Hl) end.
  rewrite length_app. simpl. lia.
Qed.

Lemma hash_nonneg input : (0 ≤ hash input)%Z.
Proof. apply Z.abs_nonneg. Qed.

(** Taking a timer away leaves the timers of the other memos armed. *)
Lemma timer_survives (l : list (Z * Z)) i j delay memo delay' memo' :
  l !! i = Some (delay, memo) →
  l !! j = Some (delay', memo') →
  memo ≠ memo' →
  ∃ j', delete i l !! j' = Some (delay', memo').
Proof.
  intros Hi Hj Hne.
  destruct (decide (j < i)) as [Hlt|Hge].
  - exists j. by rewrite list_lookup_delete_lt.
  - assert (j ≠ i) by (intros ->; congruence).
    exists (pred j). rewrite list_lookup_delete_ge by lia.
    by replace (S (pred j)) with j by lia.
Qed.

Lemma reserves_ok_step env call s : reserves_ok s → reserves_ok (dispatch env call s).2.
Proof.
  intros (Hq & Hp).
  destruct call; step_cases.
  all: split_and!; try assumption.
  all: intros ? ? Hl; simpl in Hl; invariant_cases.
  all: try first [done | by eauto].
  - split; [apply hash_nonneg|].
    exists (length (timers s)). by rewrite lookup_app_r, Nat.sub_diag.
  - destruct (Hp _ _ Hl) as [Hm [i Hi]]. split; [done|].
    exists i. by rewrite lookup_app_l by by eapply lookup_lt_Some.
  - destruct (Hp _ _ Hl) as [Hm [j Hj]]. split; [done|].
    by eapply timer_survives.
Qed.

Lemma reachable_more_invariants s :
  reachable s → ids_ok s ∧ aggregates_ok s ∧ reserves_ok s.
Proof.
  induction 1 as [|env call s _ (Hi & Ha & Hr) _].
  - unfold ids_ok, aggregates_ok, reserves_ok.
    split_and!; intros ? ? Hl; simpl in Hl; by rewrite lookup_empty in Hl.
  - split_and!; [by apply ids_ok_step|by apply aggregates_ok_step|by apply reserves_ok_step].
Qed.

(** X1. In every state the canister reaches, a donor, a charity, a campaign
    and a report are each stored under their own [id]. *)
Theorem reachable_ids s :
  reachable s →
  (∀ k d, donorProfileStorage s !! k = Some d → DonorProfile.id d = k) ∧ ids_ok s.
Proof.
  intros Hreach. split.
  - intros k d Hd. by destruct (reachable_well_formed _ Hreach) as (Hkeys & _),
      (Hkeys _ _ Hd).
  - by destruct (reachable_more_invariants _ Hreach) as (? & _).
Qed.

(** X2. In every state the canister reaches, the [donationsCount] of a donor
    is the number of its [donations], a charity has received nothing
    ([totalReceived] 0, no [donationsReceived], [donationsCount] 0) and the
    [totalReceived] of a campaign is 0: no method ever moves these totals. *)
Theorem reachable_aggregates s : reachable s → aggregates_ok s.
Proof. intros Hreach. by destruct (reachable_more_invariants _ Hreach) as (_ & ? & _). Qed.

(** X3. In every state the canister reaches, a pending reserve is stored
    under its own memo, which is not negative, is [PaymentPending] without a
    block and has a timer armed for [TIMEOUT_PERIOD]; a completed donation is
    [Completed] with its block; so no donation is pending and completed at
    once. *)
Theorem reachable_reserves s :
  reachable s →
  pending_ok s ∧ reserves_ok s
  ∧ ∀ m p r, pendingReserves s !! m = Some r → persistedReserves s !! p ≠ Some r.
Proof.
  intros Hreach.
  destruct (reachable_well_formed _ Hreach) as (_ & _ & _ & Hp).
  destruct (reachable_more_invariants _ Hreach) as (_ & _ & Hr).
  split_and!; try done.
  intros m p r Hpending Hpersisted.
  destruct (Hp _ _ Hpending) as (_ & Hstatus & _).
  destruct Hr as (Hq & _). destruct (Hq _ _ Hpersisted) as (Hstatus' & _).
  congruence.
Qed.

(** *** Reading the stores *)

Lemma values_elem {K V} `{Countable K} (m : gmap K V) (v : V) :
  v ∈ (map_to_list m).*2 ↔ ∃ k, m !! k = Some v.
Proof.
  rewrite list_elem_of_fmap. split.
  - intros ([k v'] & -> & Hin). exists k. by apply elem_of_map_to_list.
  - intros (k & Hk). exists (k, v). split; [done|]. by apply elem_of_map_to_list.
Qed.

Lemma existsb_values {K V} `{Countable K} (f : V → bool) (m : gmap K V) :
  existsb f (map_to_list m).*2 = true ↔ ∃ k v, m !! k = Some v ∧ f v = true.
Proof.
  rewrite existsb_exists. split.
  - intros (v & Hin & Hf). apply list_elem_of_In, values_elem in Hin as [k Hk]. eauto.
  - intros (k & v & Hk & Hf). exists v. split; [|done].
    apply list_elem_of_In, values_elem. eauto.
Qed.

Lemma filter_values_elem {K V} `{Countable K} (f : V → bool) (m : gmap K V) (v : V) :
  v ∈ List.filter f (map_to_list m).*2 ↔ (∃ k, m !! k = Some v) ∧ f v = true.
Proof. by rewrite list_elem_of_In, filter_In, <- list_elem_of_In, values_elem. Qed.

(** How a listing query answers: an error when there is nothing to list. *)
Lemma listing_answer {V} (l : list V) (text : string) s :
  (if (length l =? 0)%nat
   then (mret (Err (NotFound text)) : M (Result (list V) Message))
   else mret (Ok l)) s
  = (Normal (if decide (l = []) then Err (NotFound text) else Ok l), s).
Proof. destruct l; done. Qed.

Lemma lists_filter {K V} `{Countable K} (keep : V → bool) (m : gmap K V) text :
  lists keep m text
    (let l := List.filter keep (map_to_list m).*2 in
     if decide (l = []) then Err (NotFound text) else Ok l).
Proof.
  simpl. case_decide as Hnil; simpl.
  - split; [done|]. intros k v Hk. apply not_true_iff_false. intros Hkeep.
    assert (v ∈ List.filter keep (map_to_list m).*2) as Hin
      by (apply filter_values_elem; eauto).
    rewrite Hnil in Hin. by apply not_elem_of_nil in Hin.
  - split; [done|]. intros v. apply filter_values_elem.
Qed.

Lemma filter_all {A} (l : list A) : List.filter (λ _, true) l = l.
Proof. induction l; simpl; congruence. Qed.

Lemma lists_all {K V} `{Countable K} (m : gmap K V) text :
  lists (λ _, true) m text
    (let l := (map_to_list m).*2 in
     if decide (l = []) then Err (NotFound text) else Ok l).
Proof.
  pose proof (lists_filter (λ _, true) m text) as Hl.
  by rewrite filter_all in Hl.
Qed.

(** *** Donor profiles *)

(** X4. [createDonorProfile] with the four fields filled, an email the pattern
    accepts and that no stored donor has: the donor is created under the id
    [uuidv4()] gave, owned by the caller, active, with nothing donated yet,
    and [getDonorProfileById] returns it; the other donors are untouched. *)
Theorem createDonorProfile_valid env payload s :
  DonorProfilePayload.name payload ≠ "" →
  DonorProfilePayload.email payload ≠ "" →
  DonorProfilePayload.phoneNumber payload ≠ "" →
  DonorProfilePayload.address payload ≠ "" →
  emailRegex_test (DonorProfilePayload.email payload) = true →
  (∀ k d, donorProfileStorage s !! k = Some d →
          DonorProfile.email d ≠ DonorProfilePayload.email payload) →
  ∃ donor s',
    createDonorProfile env payload s = (Normal (Ok donor), s')
    ∧ donor
      = DonorProfile.mk (uuid env) (caller env) (DonorProfilePayload.name payload)
          (DonorProfilePayload.phoneNumber payload) (DonorProfilePayload.email payload)
          (DonorProfilePayload.address payload) 0 [] 0 "Active" (now env)
    ∧ getDonorProfileById (uuid env) s' = (Normal (Ok donor), s')
    ∧ ∀ k, k ≠ uuid env → donorProfileStorage s' !! k = donorProfileStorage s !! k.
Proof.
  intros Hn He Hp Ha Hre Hfresh. unfold createDonorProfile.
  rewrite !truthy_nonempty by done. rewrite Hre. run.
  destruct (existsb _ _) eqn:Hex.
  { apply existsb_values in Hex as (k & d & Hk & Heq).
    apply String.eqb_eq in Heq. by destruct (Hfresh _ _ Hk). }
  do 2 eexists. split; [done|]. split; [done|]. unfold getDonorProfileById. run.
  rewrite lookup_insert_eq. split; [done|]. intros k Hne. by rewrite lookup_insert_ne.
Qed.

(** X5. [createDonorProfile] refuses, in this order and without writing
    anything: a payload with an empty field ([InvalidPayload], missing
    fields), an email the pattern rejects (invalid format), an email that a
    stored donor already has (already exists). *)
Theorem createDonorProfile_refusals env payload s :
  let filled :=
    DonorProfilePayload.name payload ≠ "" ∧ DonorProfilePayload.email payload ≠ ""
    ∧ DonorProfilePayload.phoneNumber payload ≠ ""
    ∧ DonorProfilePayload.address payload ≠ "" in
  (¬ filled →
   createDonorProfile env payload s
   = (Normal (Err (InvalidPayload "Missing required fields")), s))
  ∧ (filled → emailRegex_test (DonorProfilePayload.email payload) = false →
     createDonorProfile env payload s
     = (Normal (Err (InvalidPayload "Invalid email format")), s))
  ∧ (filled → emailRegex_test (DonorProfilePayload.email payload) = true →
     (∃ k d, donorProfileStorage s !! k = Some d
             ∧ DonorProfile.email d = DonorProfilePayload.email payload) →
     createDonorProfile env payload s
     = (Normal (Err (InvalidPayload "Email already exists")), s)).
Proof.
  intros filled. subst filled. unfold createDonorProfile. split_and!.
  - intros Hnot.
    destruct (decide (DonorProfilePayload.name payload = "")) as [->|Hn]; [done|].
    destruct (decide (DonorProfilePayload.email payload = "")) as [->|He];
      [by rewrite orb_true_r|].
    destruct (decide (DonorProfilePayload.phoneNumber payload = "")) as [->|Hp];
      [by rewrite !orb_true_r|].
    destruct (decide (DonorProfilePayload.address payload = "")) as [->|Ha];
      [by rewrite !orb_true_r|].
    by destruct Hnot.
  - intros (Hn & He & Hp & Ha) Hre. rewrite !truthy_nonempty by done. by rewrite Hre.
  - intros (Hn & He & Hp & Ha) Hre (k & d & Hk & Heq).
    rewrite !truthy_nonempty by done. rewrite Hre. run.
    assert (existsb (λ profile, String.eqb (DonorProfile.email profile)
                                  (DonorProfilePayload.email payload))
              (map_to_list (donorProfileStorage s)).*2 = true) as ->; [|done].
    apply existsb_values. exists k, d. split; [done|]. by apply String.eqb_eq.
Qed.

(** X7. When [!==] tells two different principals apart, a caller who is
    not the owner can neither update nor delete a donor profile or a charity
    profile: the answer is the error [Error "Unauthorized"] and the stores
    are unchanged. *)
Theorem profile_mutations_refused env s :
  (∀ a b : Principal, a ≠ b → strict_neq a b = true) →
  (∀ donorId donor payload,
     donorProfileStorage s !! donorId = Some donor →
     DonorProfile.owner donor ≠ caller env →
     updateDonorProfile env donorId payload s = (Normal (Err (Error "Unauthorized")), s)
     ∧ deleteDonorProfile env donorId s = (Normal (Err (Error "Unauthorized")), s))
  ∧ (∀ charityId charity payload,
       charityProfileStorage s !! charityId = Some charity →
       Charity.owner charity ≠ caller env →
       updateCharityProfile env charityId payload s
       = (Normal (Err (Error "Unauthorized")), s)
       ∧ deleteCharityProfile env charityId s = (Normal (Err (Error "Unauthorized")), s)).
Proof.
  intros Hneq. split.
  - intros donorId donor payload Hd Hne.
    unfold updateDonorProfile, deleteDonorProfile. run. by rewrite Hd, Hneq.
  - intros charityId charity payload Hc Hne.
    unfold updateCharityProfile, deleteCharityProfile. run. by rewrite Hc, Hneq.
Qed.

(** *** Charity profiles *)

(** X9. [createCharityProfile] with the five fields filled, an email the
    pattern accepts and that no stored charity has: the charity is created
    under the id [uuidv4()] gave, owned by the caller, active, with nothing
    received, and [getCharityProfileById] returns it. *)
Theorem createCharityProfile_valid env payload s :
  CharityProfilePayload.name payload ≠ "" →
  CharityProfilePayload.email payload ≠ "" →
  CharityProfilePayload.phoneNumber payload ≠ "" →
  CharityProfilePayload.address payload ≠ "" →
  CharityProfilePayload.missionStatement payload ≠ "" →
  emailRegex_test (CharityProfilePayload.email payload) = true →
  (∀ k c, charityProfileStorage s !! k = Some c →
          Charity.email c ≠ CharityProfilePayload.email payload) →
  ∃ charity s',
    createCharityProfile env payload s = (Normal (Ok charity), s')
    ∧ charity
      = Charity.mk (uuid env) (caller env) (CharityProfilePayload.name payload)
          (CharityProfilePayload.phoneNumber payload) (CharityProfilePayload.email payload)
          (CharityProfilePayload.address payload)
          (CharityProfilePayload.missionStatement payload) 0 [] 0 "Active" (now env)
    ∧ getCharityProfileById (uuid env) s' = (Normal (Ok charity), s')
    ∧ ∀ k, k ≠ uuid env → charityProfileStorage s' !! k = charityProfileStorage s !! k.
Proof.
  intros Hn He Hp Ha Hm Hre Hfresh. unfold createCharityProfile.
  rewrite !truthy_nonempty by done. rewrite Hre. run.
  destruct (existsb _ _) eqn:Hex.
  { apply existsb_values in Hex as (k & c & Hk & Heq).
    apply String.eqb_eq in Heq. by destruct (Hfresh _ _ Hk). }
  do 2 eexists. split; [done|]. split; [done|]. unfold getCharityProfileById. run.
  rewrite lookup_insert_eq. split; [done|]. intros k Hne. by rewrite lookup_insert_ne.
Qed.

Lemma truthy_nat64_nonzero (n : Z) : n ≠ 0%Z → truthy_nat64 n = true.
Proof. intros Hn. unfold truthy_nat64. by apply negb_true_iff, Z.eqb_neq. Qed.

(** *** Campaigns *)

(** X11. [createCampaign] with a title, a description, a target that is not
    zero and a stored charity: whoever calls, the campaign is created under
    the id [uuidv4()] gave, [Pending], with the caller as creator, nothing
    received and no donor, and [getCampaignById] returns it. *)
Theorem createCampaign_valid env payload s (charity : Charity.t) :
  CampaignPayload.title payload ≠ "" →
  CampaignPayload.description payload ≠ "" →
  CampaignPayload.targetAmount payload ≠ 0%Z →
  charityProfileStorage s !! CampaignPayload.charityId payload = Some charity →
  ∃ campaign s',
    createCampaign env payload s = (Normal (Ok campaign), s')
    ∧ campaign
      = Campaign.mk (uuid env) (CampaignPayload.charityId payload)
          (CampaignPayload.title payload) (CampaignPayload.description payload)
          (CampaignPayload.targetAmount payload) 0 [] (CampaignStatus.Pending "Pending")
          (caller env) (now env)
    ∧ getCampaignById (uuid env) s' = (Normal (Ok campaign), s')
    ∧ ∀ k, k ≠ uuid env → campaignStorage s' !! k = campaignStorage s !! k.
Proof.
  intros Ht Hd Hz Hc. unfold createCampaign.
  rewrite !truthy_nonempty, truthy_nat64_nonzero by done. run. rewrite Hc.
  do 2 eexists. split; [done|]. split; [done|]. unfold getCampaignById. run.
  rewrite lookup_insert_eq. split; [done|]. intros k Hne. by rewrite lookup_insert_ne.
Qed.

(** X12. [createCampaign] refuses without writing anything: an empty title,
    an empty description or the target 0 ([InvalidPayload]); then a charity
    that is not stored ([NotFound]). *)
Theorem createCampaign_refusals env payload s :
  let filled :=
    CampaignPayload.title payload ≠ "" ∧ CampaignPayload.description payload ≠ ""
    ∧ CampaignPayload.targetAmount payload ≠ 0%Z in
  (¬ filled →
   createCampaign env payload s
   = (Normal (Err (InvalidPayload "Missing required fields")), s))
  ∧ (filled →
     charityProfileStorage s !! CampaignPayload.charityId payload = None →
     createCampaign env payload s
     = (Normal (Err (NotFound ("Charity with id=" +:+ CampaignPayload.charityId payload
                               +:+ " not found"))), s)).
Proof.
  intros filled. subst filled. unfold createCampaign. split.
  - intros Hnot.
    destruct (decide (CampaignPayload.title payload = "")) as [->|Ht]; [done|].
    destruct (decide (CampaignPayload.description payload = "")) as [->|Hd];
      [by rewrite orb_true_r|].
    destruct (decide (CampaignPayload.targetAmount payload = 0%Z)) as [->|Hz];
      [by rewrite !orb_true_r|].
    by destruct Hnot.
  - intros (Ht & Hd & Hz) Hc.
    rewrite !truthy_nonempty, truthy_nat64_nonzero by done. run. by rewrite Hc.
Qed.

Lemma listing_nonempty {V} (l : list V) (text : string) (v : V) s :
  v ∈ l →
  (if (length l =? 0)%nat
   then (mret (Err (NotFound text)) : M (Result (list V) Message))
   else mret (Ok l)) s
  = (Normal (Ok l), s).
Proof. intros Hin. destruct l; [by apply not_elem_of_nil in Hin|done]. Qed.

Lemma includes_last texts text : includes (texts ++ [text]) text = true.
Proof.
  unfold includes. rewrite existsb_app. simpl.
  by rewrite String.eqb_refl, orb_true_r.
Qed.

(** A filtering query lists [v]: it is left to show that [v] is stored and kept. *)
Ltac listed_in_filter v :=
  lazymatch goal with
  | |- context [List.filter ?f ?l] =>
      let Hin := fresh "Hin" in
      assert (v ∈ List.filter f l) as Hin;
      [apply filter_values_elem
      |eexists; split; [by apply (listing_nonempty _ _ _ _ Hin)|done]]
  end.

Lemma acceptCampaign_run env donorId campaignId s donor campaign :
  donorProfileStorage s !! donorId = Some donor →
  campaignStorage s !! campaignId = Some campaign →
  acceptCampaign env donorId campaignId s
  = (Normal (Ok (accepted_by campaign donorId)),
     mkState (<[donorId := accepting donor campaignId]> (donorProfileStorage s))
       (charityProfileStorage s)
       (<[campaignId := accepted_by campaign donorId]> (campaignStorage s))
       (persistedReserves s) (pendingReserves s) (donationReportStorage s) (timers s)).
Proof.
  intros Hd Hk. unfold acceptCampaign. run. rewrite Hd; simpl. by rewrite Hk.
Qed.

Lemma completeCampaign_run env campaignId s campaign :
  campaignStorage s !! campaignId = Some campaign →
  completeCampaign env campaignId s
  = (Normal (Ok (completed campaign)),
     mkState (donorProfileStorage s) (charityProfileStorage s)
       (<[campaignId := completed campaign]> (campaignStorage s))
       (persistedReserves s) (pendingReserves s) (donationReportStorage s) (timers s)).
Proof. intros Hk. unfold completeCampaign. run. by rewrite Hk. Qed.

(** X13. [acceptCampaign], for a stored donor and a stored campaign and
    whoever calls: the campaign gets the donor appended to its [donors] and
    the status [Accepted], whatever its status was; the donor gets the
    campaign appended to its [donations] and one more in [donationsCount];
    [getDonorCampaigns] and [getAcceptedCampaigns] then list the campaign. *)
Theorem acceptCampaign_effect env donorId campaignId s donor campaign :
  donorProfileStorage s !! donorId = Some donor →
  campaignStorage s !! campaignId = Some campaign →
  ∃ s',
    acceptCampaign env donorId campaignId s
    = (Normal (Ok (accepted_by campaign donorId)), s')
    ∧ campaignStorage s' = <[campaignId := accepted_by campaign donorId]> (campaignStorage s)
    ∧ donorProfileStorage s'
      = <[donorId := accepting donor campaignId]> (donorProfileStorage s)
    ∧ (∃ l, getDonorCampaigns donorId s' = (Normal (Ok l), s')
            ∧ accepted_by campaign donorId ∈ l)
    ∧ (∃ l, getAcceptedCampaigns s' = (Normal (Ok l), s')
            ∧ accepted_by campaign donorId ∈ l).
Proof.
  intros Hd Hk. eexists. split; [by apply acceptCampaign_run|].
  simpl. split_and!; try done.
  - unfold getDonorCampaigns. run. rewrite lookup_insert_eq.
    listed_in_filter (accepted_by campaign donorId).
    split; [exists campaignId; apply lookup_insert_eq|apply includes_last].
  - unfold getAcceptedCampaigns. run.
    listed_in_filter (accepted_by campaign donorId).
    split; [exists campaignId; apply lookup_insert_eq|done].
Qed.

(** X14. [acceptCampaign] does not look whether the donor has accepted the
    campaign before: accepting twice lists the donor twice in the campaign,
    the campaign twice in the donor, and counts two. *)
Theorem acceptCampaign_twice env1 env2 donorId campaignId s donor campaign :
  donorProfileStorage s !! donorId = Some donor →
  campaignStorage s !! campaignId = Some campaign →
  ∃ s1 s2 updated donor2,
    acceptCampaign env1 donorId campaignId s
    = (Normal (Ok (accepted_by campaign donorId)), s1)
    ∧ acceptCampaign env2 donorId campaignId s1 = (Normal (Ok updated), s2)
    ∧ Campaign.donors updated = (Campaign.donors campaign ++ [donorId; donorId])%list
    ∧ campaignStorage s2 !! campaignId = Some updated
    ∧ donorProfileStorage s2 !! donorId = Some donor2
    ∧ DonorProfile.donations donor2
      = (DonorProfile.donations donor ++ [campaignId; campaignId])%list
    ∧ DonorProfile.donationsCount donor2 = (DonorProfile.donationsCount donor + 2)%Z.
Proof.
  intros Hd Hk.
  do 2 eexists.
  exists (accepted_by (accepted_by campaign donorId) donorId),
    (accepting (accepting donor campaignId) campaignId).
  split; [by apply acceptCampaign_run|].
  split; [apply acceptCampaign_run; simpl; apply lookup_insert_eq|].
  simpl. split_and!.
  - by rewrite <- app_assoc.
  - apply lookup_insert_eq.
  - apply lookup_insert_eq.
  - by rewrite <- app_assoc.
  - lia.
Qed.


(** X16. [Completed] is not final: a completed campaign that a donor accepts
    is stored as [Accepted] again and leaves the list of
    [getCompletedCampaigns]. *)
Theorem completeCampaign_then_accept env1 env2 donorId campaignId s donor campaign :
  donorProfileStorage s !! donorId = Some donor →
  campaignStorage s !! campaignId = Some campaign →
  ∃ s1 s2 updated,
    completeCampaign env1 campaignId s = (Normal (Ok (completed campaign)), s1)
    ∧ acceptCampaign env2 donorId campaignId s1 = (Normal (Ok updated), s2)
    ∧ Campaign.status updated = CampaignStatus.Accepted "Accepted"
    ∧ campaignStorage s2 !! campaignId = Some updated
    ∧ ∀ l, (getCompletedCampaigns s2).1 = Normal (Ok l) → updated ∉ l.
Proof.
  intros Hd Hk.
  do 2 eexists. exists (accepted_by (completed campaign) donorId).
  split; [by apply completeCampaign_run|].
  split; [apply acceptCampaign_run; simpl; [done|apply lookup_insert_eq]|].
  simpl. split_and!; try done.
  - apply lookup_insert_eq.
  - intros l. unfold getCompletedCampaigns. run.
    destruct (List.filter is_completed _) as [|c l'] eqn:Hf; simpl; [done|].
    intros [= <-] Hin. rewrite <- Hf in Hin.
    by apply filter_values_elem in Hin as [_ ?].
Qed.

(** X18. When [!==] tells two different principals apart, a caller who is
    not the creator can neither update nor delete a campaign: the answer is
    the error [Error "Unauthorized"] and the campaign is still what
    [getCampaignById] returns. *)
Theorem campaign_mutations_refused env campaignId s campaign :
  (∀ a b : Principal, a ≠ b → strict_neq a b = true) →
  campaignStorage s !! campaignId = Some campaign →
  Campaign.creator campaign ≠ caller env →
  (∀ payload,
     updateCampaign env campaignId payload s = (Normal (Err (Error "Unauthorized")), s))
  ∧ deleteCampaignById env campaignId s = (Normal (Err (Error "Unauthorized")), s)
  ∧ getCampaignById campaignId s = (Normal (Ok campaign), s).
Proof.
  intros Hneq Hk Hne. split_and!.
  - intros payload. by eapply updateCampaign_unauthorized.
  - by eapply deleteCampaignById_unauthorized.
  - unfold getCampaignById. run. by rewrite Hk.
Qed.

(** X29. The owner is recognised by [!==] alone: on a platform where [!==]
    holds of every two [Principal] objects, nobody, the owner included, can
    update or delete a stored donor, charity or campaign; each attempt
    answers [Error "Unauthorized"] and writes nothing. *)
Theorem mutations_refused_to_all env s :
  (∀ a b : Principal, strict_neq a b = true) →
  (∀ donorId donor payload,
     donorProfileStorage s !! donorId = Some donor →
     updateDonorProfile env donorId payload s = (Normal (Err (Error "Unauthorized")), s)
     ∧ deleteDonorProfile env donorId s = (Normal (Err (Error "Unauthorized")), s))
  ∧ (∀ charityId charity payload,
       charityProfileStorage s !! charityId = Some charity →
       updateCharityProfile env charityId payload s
       = (Normal (Err (Error "Unauthorized")), s)
       ∧ deleteCharityProfile env charityId s = (Normal (Err (Error "Unauthorized")), s))
  ∧ (∀ campaignId campaign payload,
       campaignStorage s !! campaignId = Some campaign →
       updateCampaign env campaignId payload s = (Normal (Err (Error "Unauthorized")), s)
       ∧ deleteCampaignById env campaignId s = (Normal (Err (Error "Unauthorized")), s)).
Proof.
  intros Hneq.
  unfold updateDonorProfile, deleteDonorProfile, updateCharityProfile,
    deleteCharityProfile, updateCampaign, deleteCampaignById. run.
  split_and!; intros id stored payload Hstored; by rewrite Hstored, Hneq.
Qed.

(** *** The queries *)

(** X19. The five listing queries never change the stores; each answers
    [NotFound] when its store is empty and otherwise the non-empty list of the
    stored values. *)
Theorem listing_queries s :
  (∃ answer, getAllDonorProfiles s = (Normal answer, s)
     ∧ lists (λ _, true) (donorProfileStorage s) "No donor profiles found" answer)
  ∧ (∃ answer, getAllCharityProfiles s = (Normal answer, s)
       ∧ lists (λ _, true) (charityProfileStorage s) "No charity profiles found" answer)
  ∧ (∃ answer, getAllCampaigns s = (Normal answer, s)
       ∧ lists (λ _, true) (campaignStorage s) "No campaigns found" answer)
  ∧ (∃ answer, getAllDonations s = (Normal answer, s)
       ∧ lists (λ _, true) (persistedReserves s) "No donations found" answer)
  ∧ (∃ answer, getAllDonationReports s = (Normal answer, s)
       ∧ lists (λ _, true) (donationReportStorage s) "No donation reports found" answer).
Proof.
  unfold getAllDonorProfiles, getAllCharityProfiles, getAllCampaigns, getAllDonations,
    getAllDonationReports. run.
  split_and!; (eexists; split; [apply listing_answer|apply lists_all]).
Qed.

(** X20. The filtering queries never change the stores and answer
    [NotFound] when nothing is selected: [getAcceptedCampaigns] and
    [getCompletedCampaigns] select by status, [getDonorDonations] and
    [getCharityDonations] select the completed donations by [donorId] and
    [charityId], [getDonorCampaigns] fails for an unknown donor and otherwise
    selects the campaigns whose [donors] include the donor. *)
Theorem filtering_queries s :
  (∃ answer, getAcceptedCampaigns s = (Normal answer, s)
     ∧ lists is_accepted (campaignStorage s) "No accepted campaigns found" answer)
  ∧ (∃ answer, getCompletedCampaigns s = (Normal answer, s)
       ∧ lists is_completed (campaignStorage s) "No completed campaigns found" answer)
  ∧ (∀ donorId, ∃ answer, getDonorDonations donorId s = (Normal answer, s)
       ∧ lists (λ donation, String.eqb (Donation.donorId donation) donorId)
           (persistedReserves s) "No donations found for this donor" answer)
  ∧ (∀ charityId, ∃ answer, getCharityDonations charityId s = (Normal answer, s)
       ∧ lists (λ donation, String.eqb (Donation.charityId donation) charityId)
           (persistedReserves s) "No donations found for this charity" answer)
  ∧ (∀ donorId,
       (donorProfileStorage s !! donorId = None →
        getDonorCampaigns donorId s
        = (Normal (Err (NotFound ("Donor with id=" +:+ donorId +:+ " not found"))), s))
       ∧ (is_Some (donorProfileStorage s !! donorId) →
          ∃ answer, getDonorCampaigns donorId s = (Normal answer, s)
            ∧ lists (λ campaign, includes (Campaign.donors campaign) donorId)
                (campaignStorage s) "No campaigns found for this donor" answer)).
Proof.
  unfold getAcceptedCampaigns, getCompletedCampaigns, getDonorDonations,
    getCharityDonations, getDonorCampaigns. run.
  split_and!; try intros id; try split.
  1-4: eexists; split; [apply listing_answer|apply lists_filter].
  - by intros ->.
  - intros [donor ->]. eexists; split; [apply listing_answer|apply lists_filter].
Qed.

(** *** An id that is not stored *)

(** X21. An id that is not stored: the updates, deletions and lookups by
    id, [completeCampaign] and [acceptCampaign] answer [NotFound] with the id
    in the text and write nothing; [acceptCampaign] looks for the donor before
    the campaign. *)
Theorem missing_id_not_found env id s :
  (donorProfileStorage s !! id = None →
   let answer {T} : Completion (Result T Message) * State :=
     (Normal (Err (NotFound ("Donor profile with id=" +:+ id +:+ " not found"))), s) in
   (∀ payload, updateDonorProfile env id payload s = answer)
   ∧ deleteDonorProfile env id s = answer
   ∧ getDonorProfileById id s = answer
   ∧ ∀ campaignId,
       acceptCampaign env id campaignId s
       = (Normal (Err (NotFound ("Donor with id=" +:+ id +:+ " not found"))), s))
  ∧ (charityProfileStorage s !! id = None →
     let answer {T} : Completion (Result T Message) * State :=
       (Normal (Err (NotFound ("Charity profile with id=" +:+ id +:+ " not found"))), s) in
     (∀ payload, updateCharityProfile env id payload s = answer)
     ∧ deleteCharityProfile env id s = answer
     ∧ getCharityProfileById id s = answer)
  ∧ (campaignStorage s !! id = None →
     let answer {T} : Completion (Result T Message) * State :=
       (Normal (Err (NotFound ("Campaign with id=" +:+ id +:+ " not found"))), s) in
     (∀ payload, updateCampaign env id payload s = answer)
     ∧ deleteCampaignById env id s = answer
     ∧ completeCampaign env id s = answer
     ∧ getCampaignById id s = answer
     ∧ ∀ donorId, is_Some (donorProfileStorage s !! donorId) →
                  acceptCampaign env donorId id s = answer).
Proof.
  unfold updateDonorProfile, deleteDonorProfile, getDonorProfileById, acceptCampaign,
    updateCharityProfile, deleteCharityProfile, getCharityProfileById,
    updateCampaign, deleteCampaignById, completeCampaign, getCampaignById. run.
  split_and!; intros Hnone; rewrite ?Hnone; split_and!; try done.
  intros donorId [donor ->]. simpl. by rewrite Hnone.
Qed.

(** *** Donations *)

(** X22. Whatever way it ends, [completeReserveDonation] writes neither a
    charity, nor a campaign, nor a report, nor a timer, and no donor but the
    one stored under [donorId]; of that donor it changes the [donationAmount]
    alone. *)
Theorem complete_frame env reservor donorId reservePrice block memo s :
  donor_keys_ok s →
  let s' := (completeReserveDonation env reservor donorId reservePrice block memo s).2 in
  charityProfileStorage s' = charityProfileStorage s
  ∧ campaignStorage s' = campaignStorage s
  ∧ donationReportStorage s' = donationReportStorage s
  ∧ timers s' = timers s
  ∧ (∀ k, k ≠ donorId → donorProfileStorage s' !! k = donorProfileStorage s !! k)
  ∧ (∀ donor, donorProfileStorage s !! donorId = Some donor →
       donorProfileStorage s' !! donorId = Some donor
       ∨ donorProfileStorage s' !! donorId = Some (credited donor reservePrice)).
Proof.
  intros Hkeys s'. subst s'.
  destruct (verifyPaymentInternal env reservor reservePrice block memo)
    as [[]|e] eqn:Hv.
  - destruct (pendingReserves s !! memo) as [reserve|] eqn:Hp.
    + destruct (donorProfileStorage s !! donorId) as [donor|] eqn:Hd.
      * destruct (nat64 (DonorProfile.donationAmount donor + reservePrice)) eqn:Hn.
        -- erewrite complete_ok by done. simpl.
           destruct (Hkeys _ _ Hd) as [-> _].
           split_and!; try done.
           ++ intros k Hne. by rewrite lookup_insert_ne.
           ++ intros ? [= <-]. right. apply lookup_insert_eq.
        -- erewrite complete_overflow by done. simpl. split_and!; try done.
           intros ? [= <-]. by left.
      * erewrite complete_no_donor by done. simpl. by split_and!.
    + erewrite complete_no_pending by done. simpl. split_and!; try done. by left.
  - erewrite complete_unverified by done. simpl. split_and!; try done. by left.
  - erewrite complete_rejected by done. simpl. split_and!; try done. by left.
Qed.

(** X23. [completeReserveDonation] credits the donor that the call names,
    not the donor of the reserve: when they differ and the credited amount is
    a [nat64], the named donor gets [reservePrice], the donor of the reserve
    gets nothing, and the completed donation is listed by [getDonorDonations]
    under the donor of the reserve only. *)
Theorem complete_credits_named_donor env reservor donorId reservePrice block memo s
    reserve donor :
  donor_keys_ok s →
  verifyPaymentInternal env reservor reservePrice block memo = Normal true →
  pendingReserves s !! memo = Some reserve →
  donorProfileStorage s !! donorId = Some donor →
  nat64 (DonorProfile.donationAmount donor + reservePrice) = true →
  Donation.donorId reserve ≠ donorId →
  ∃ s',
    completeReserveDonation env reservor donorId reservePrice block memo s
    = (Normal (Ok (paid reserve block)), s')
    ∧ donorProfileStorage s' !! donorId = Some (credited donor reservePrice)
    ∧ donorProfileStorage s' !! Donation.donorId reserve
      = donorProfileStorage s !! Donation.donorId reserve
    ∧ (∃ l, getDonorDonations (Donation.donorId reserve) s' = (Normal (Ok l), s')
            ∧ paid reserve block ∈ l)
    ∧ ∀ l, (getDonorDonations donorId s').1 = Normal (Ok l) → paid reserve block ∉ l.
Proof.
  intros Hkeys Hv Hp Hd Hn Hne.
  destruct (Hkeys _ _ Hd) as [Hid _].
  eexists. split; [by eapply complete_ok|]. simpl. rewrite Hid. split_and!.
  - apply lookup_insert_eq.
  - by rewrite lookup_insert_ne.
  - unfold getDonorDonations. run.
    listed_in_filter (paid reserve block).
    split; [exists (caller env); apply lookup_insert_eq|apply String.eqb_refl].
  - intros l. unfold getDonorDonations. run.
    destruct (List.filter _ _) as [|d l'] eqn:Hf; simpl; [done|].
    intros [= <-] Hin. rewrite <- Hf in Hin.
    apply filter_values_elem in Hin as [_ Heq]. simpl in Heq.
    by apply String.eqb_eq in Heq.
Qed.

(** X24. A completion whose credited amount is a [nat64] succeeds, and the
    completed donation is listed by [getAllDonations], by [getDonorDonations]
    for the donor of the reserve and by [getCharityDonations] for its
    charity. *)
Theorem complete_then_listed env reservor donorId reservePrice block memo s reserve donor :
  verifyPaymentInternal env reservor reservePrice block memo = Normal true →
  pendingReserves s !! memo = Some reserve →
  donorProfileStorage s !! donorId = Some donor →
  nat64 (DonorProfile.donationAmount donor + reservePrice) = true →
  ∃ s',
    completeReserveDonation env reservor donorId reservePrice block memo s
    = (Normal (Ok (paid reserve block)), s')
    ∧ (∃ l, getAllDonations s' = (Normal (Ok l), s') ∧ paid reserve block ∈ l)
    ∧ (∃ l, getDonorDonations (Donation.donorId reserve) s' = (Normal (Ok l), s')
            ∧ paid reserve block ∈ l)
    ∧ (∃ l, getCharityDonations (Donation.charityId reserve) s' = (Normal (Ok l), s')
            ∧ paid reserve block ∈ l).
Proof.
  intros Hv Hp Hd Hn.
  eexists. split; [by eapply complete_ok|]. split_and!.
  - unfold getAllDonations. run.
    assert (paid reserve block
            ∈ (map_to_list (<[caller env := paid reserve block]> (persistedReserves s))).*2)
      as Hin by (apply values_elem; exists (caller env); apply lookup_insert_eq).
    eexists. split; [by apply (listing_nonempty _ _ _ _ Hin)|done].
  - unfold getDonorDonations. run.
    listed_in_filter (paid reserve block).
    split; [exists (caller env); apply lookup_insert_eq|apply String.eqb_refl].
  - unfold getCharityDonations. run.
    listed_in_filter (paid reserve block).
    split; [exists (caller env); apply lookup_insert_eq|apply String.eqb_refl].
Qed.

(** X25. Completed donations are stored under the caller: when one caller
    completes two reserves and the credited amounts are [nat64], the donor is
    credited both prices but the second donation takes the place of the first
    in the store, which does not grow. *)
Theorem second_completion_replaces_first
    env1 env2 reservor1 reservor2 donorId price1 price2 block1 block2 memo1 memo2
    s reserve1 reserve2 donor :
  donor_keys_ok s →
  caller env1 = caller env2 →
  memo1 ≠ memo2 →
  pendingReserves s !! memo1 = Some reserve1 →
  pendingReserves s !! memo2 = Some reserve2 →
  donorProfileStorage s !! donorId = Some donor →
  verifyPaymentInternal env1 reservor1 price1 block1 memo1 = Normal true →
  verifyPaymentInternal env2 reservor2 price2 block2 memo2 = Normal true →
  nat64 (DonorProfile.donationAmount donor + price1) = true →
  nat64 (DonorProfile.donationAmount donor + price1 + price2) = true →
  ∃ s1 s2,
    completeReserveDonation env1 reservor1 donorId price1 block1 memo1 s
    = (Normal (Ok (paid reserve1 block1)), s1)
    ∧ completeReserveDonation env2 reservor2 donorId price2 block2 memo2 s1
      = (Normal (Ok (paid reserve2 block2)), s2)
    ∧ donorProfileStorage s2 !! donorId
      = Some (credited (credited donor price1) price2)
    ∧ persistedReserves s2 = <[caller env2 := paid reserve2 block2]> (persistedReserves s)
    ∧ size (persistedReserves s2) = size (persistedReserves s1).
Proof.
  intros Hkeys Hcaller Hne Hp1 Hp2 Hd Hv1 Hv2 Hn1 Hn2.
  destruct (Hkeys _ _ Hd) as [Hid _].
  eexists. eexists. split; [by eapply complete_ok|].
  split.
  { eapply complete_ok; [done| | |]; simpl.
    - by rewrite lookup_delete_ne.
    - rewrite Hid. apply lookup_insert_eq.
    - done. }
  simpl. rewrite Hid, Hcaller. split_and!.
  - apply lookup_insert_eq.
  - apply insert_insert_eq.
  - apply map_size_insert_Some. rewrite lookup_insert_eq. by eexists.
Qed.

(** What [reserveDonation] writes: one pending reserve, over whatever was
    pending under that memo, and one timer. It asks neither that the caller
    owns the donor, nor that the campaign is one of the charity, nor that the
    amount is positive. *)
Lemma reserveDonation_effect env payload s donor (charity : Charity.t) campaign :
  DonationPayload.donorId payload ≠ "" →
  DonationPayload.charityId payload ≠ "" →
  DonationPayload.campaignId payload ≠ "" →
  donorProfileStorage s !! DonationPayload.donorId payload = Some donor →
  charityProfileStorage s !! DonationPayload.charityId payload = Some charity →
  campaignStorage s !! DonationPayload.campaignId payload = Some campaign →
  let memo := generateCorrelationId env (DonationPayload.donorId payload) in
  let reserve :=
    Donation.mk (uuid env) (DonationPayload.donorId payload)
      (DonationPayload.charityId payload) (DonationPayload.campaignId payload)
      (DonorProfile.owner donor) (Campaign.creator campaign)
      (DonationPayload.amount payload)
      (DonationStatus.PaymentPending "PaymentPending") (now env) None memo in
  reserveDonation env payload s
  = (Normal (Ok reserve),
     mkState (donorProfileStorage s) (charityProfileStorage s) (campaignStorage s)
       (persistedReserves s) (<[memo := reserve]> (pendingReserves s))
       (donationReportStorage s) (timers s ++ [(TIMEOUT_PERIOD, memo)])).
Proof.
  intros Hdne Hcne Hkne Hd Hc Hk. unfold reserveDonation.
  rewrite !truthy_nonempty by done. run. by rewrite Hd, Hc, Hk.
Qed.

(** X26. Two [reserveDonation] of one donor by one caller at one time get
    the same memo: the second reserve takes the place of the first in the
    pending store, and both timers stay armed. *)
Theorem reserveDonation_same_memo env1 env2 payload1 payload2 s
    donor (charity1 charity2 : Charity.t) campaign1 campaign2 :
  caller env1 = caller env2 →
  time env1 = time env2 →
  DonationPayload.donorId payload1 = DonationPayload.donorId payload2 →
  DonationPayload.donorId payload1 ≠ "" →
  DonationPayload.charityId payload1 ≠ "" →
  DonationPayload.campaignId payload1 ≠ "" →
  DonationPayload.charityId payload2 ≠ "" →
  DonationPayload.campaignId payload2 ≠ "" →
  donorProfileStorage s !! DonationPayload.donorId payload1 = Some donor →
  charityProfileStorage s !! DonationPayload.charityId payload1 = Some charity1 →
  campaignStorage s !! DonationPayload.campaignId payload1 = Some campaign1 →
  charityProfileStorage s !! DonationPayload.charityId payload2 = Some charity2 →
  campaignStorage s !! DonationPayload.campaignId payload2 = Some campaign2 →
  ∃ reserve1 reserve2 s1 s2,
    reserveDonation env1 payload1 s = (Normal (Ok reserve1), s1)
    ∧ reserveDonation env2 payload2 s1 = (Normal (Ok reserve2), s2)
    ∧ Donation.memo reserve1 = Donation.memo reserve2
    ∧ pendingReserves s2 = <[Donation.memo reserve2 := reserve2]> (pendingReserves s)
    ∧ timers s2
      = (timers s ++ [(TIMEOUT_PERIOD, Donation.memo reserve2);
                      (TIMEOUT_PERIOD, Donation.memo reserve2)])%list.
Proof.
  intros Hcaller Htime Hid Hdne Hcne1 Hkne1 Hcne2 Hkne2 Hd Hc1 Hk1 Hc2 Hk2.
  assert (generateCorrelationId env1 (DonationPayload.donorId payload1)
          = generateCorrelationId env2 (DonationPayload.donorId payload2)) as Hmemo.
  { unfold generateCorrelationId. by rewrite Hcaller, Htime, Hid. }
  do 4 eexists. split; [by eapply reserveDonation_effect|].
  split.
  { eapply reserveDonation_effect; simpl; try done; by rewrite <- ?Hid. }
  simpl. rewrite Hmemo. split_and!; try done.
  - apply insert_insert_eq.
  - by rewrite <- app_assoc.
Qed.

(** X27. When the timer that a [reserveDonation] armed fires, the reserve
    is discarded: the pending store is the one before the reserve without
    that memo (all stores are as before when the memo was free), and a
    [completeReserveDonation] with that memo fails with [NotFound] whenever
    the ledger answers, and throws, writing nothing, when the ledger rejects
    the call. *)
Theorem reserve_then_expire env payload s reserve s1 :
  reserveDonation env payload s = (Normal (Ok reserve), s1) →
  ∃ s2,
    timerFires (length (timers s)) s1 = (Normal (), s2)
    ∧ pendingReserves s2 = delete (Donation.memo reserve) (pendingReserves s)
    ∧ (pendingReserves s !! Donation.memo reserve = None → s2 = s)
    ∧ ∀ env' reservor donorId reservePrice block,
        match query_blocks env' block 1 with
        | Answered _ =>
            ∃ text,
              completeReserveDonation env' reservor donorId reservePrice block
                (Donation.memo reserve) s2
              = (Normal (Err (NotFound text)), s2)
        | Rejected error =>
            completeReserveDonation env' reservor donorId reservePrice block
              (Donation.memo reserve) s2
            = (Throw error, s2)
        end.
Proof.
  unfold reserveDonation. run.
  repeat (case_match; simpl in *; simplify_eq); try done.
  intros [= <- <-]. simpl.
  set (memo := generateCorrelationId env (DonationPayload.donorId payload)).
  set (reserve := Donation.mk _ _ _ _ _ _ _ _ _ _ _).
  pose proof (timerFires_last TIMEOUT_PERIOD memo
                (mkState (donorProfileStorage s) (charityProfileStorage s)
                   (campaignStorage s) (persistedReserves s)
                   (<[memo := reserve]> (pendingReserves s))
                   (donationReportStorage s) (timers s))) as Hfire.
  simpl in Hfire. rewrite Hfire. unfold discardByTimeout_callback. run.
  eexists. split; [done|]. simpl. rewrite delete_insert_eq.
  assert (delete memo (pendingReserves s) !! memo = None) as Hgone
    by apply lookup_delete_eq.
  split_and!; [done| |].
  - intros Hnone. rewrite delete_id by done. by destruct s.
  - intros env' reservor donorId reservePrice block.
    destruct (query_blocks env' block 1) as [blocks|error] eqn:Hq.
    + destruct (verifyPaymentInternal_answered env' reservor reservePrice block memo
                  blocks Hq) as ([] & Hv & _).
      * eexists. by apply complete_no_pending.
      * eexists. by apply complete_unverified.
    + apply complete_rejected. by apply verifyPaymentInternal_throws.
Qed.

(** *** Donation reports *)

(** X28. [createDonationReport] refuses a payload with an empty id or title
    or the amount 0, then a missing donor, charity or campaign, in this order
    and without writing; otherwise it stores, under the id [uuidv4()] gave, a
    report marked [Completed] with no [paidAt], touches no other store, and
    [getAllDonationReports] lists it. *)
Theorem createDonationReport_spec env payload s :
  let filled :=
    DonationReportPayload.donorId payload ≠ ""
    ∧ DonationReportPayload.charityId payload ≠ ""
    ∧ DonationReportPayload.campaignId payload ≠ ""
    ∧ DonationReportPayload.campaignTitle payload ≠ ""
    ∧ DonationReportPayload.amount payload ≠ 0%Z in
  let donor := donorProfileStorage s !! DonationReportPayload.donorId payload in
  let charity := charityProfileStorage s !! DonationReportPayload.charityId payload in
  let campaign := campaignStorage s !! DonationReportPayload.campaignId payload in
  let refused error := (Normal (Err error), s) in
  (¬ filled →
   createDonationReport env payload s = refused (InvalidPayload "Missing required fields"))
  ∧ (filled → donor = None →
     createDonationReport env payload s
     = refused (NotFound ("Cannot create donation report: Donor with id="
                          +:+ DonationReportPayload.donorId payload +:+ " not found")))
  ∧ (filled → is_Some donor → charity = None →
     createDonationReport env payload s
     = refused (NotFound ("Cannot create donation report: Charity with id="
                          +:+ DonationReportPayload.charityId payload +:+ " not found")))
  ∧ (filled → is_Some donor → is_Some charity → campaign = None →
     createDonationReport env payload s
     = refused (NotFound ("Cannot create donation report: Campaign with id="
                          +:+ DonationReportPayload.campaignId payload +:+ " not found")))
  ∧ (filled → is_Some donor → is_Some charity → is_Some campaign →
     let report :=
       DonationReport.mk (uuid env) (DonationReportPayload.donorId payload)
         (DonationReportPayload.charityId payload)
         (DonationReportPayload.campaignId payload)
         (DonationReportPayload.campaignTitle payload)
         (DonationReportPayload.amount payload)
         (DonationReportStatus.Completed "Completed") (now env) None in
     let s' :=
       mkState (donorProfileStorage s) (charityProfileStorage s) (campaignStorage s)
         (persistedReserves s) (pendingReserves s)
         (<[uuid env := report]> (donationReportStorage s)) (timers s) in
     createDonationReport env payload s = (Normal (Ok report), s')
     ∧ ∃ l, getAllDonationReports s' = (Normal (Ok l), s') ∧ report ∈ l).
Proof.
  intros filled donor charity campaign refused.
  subst filled donor charity campaign refused. unfold createDonationReport.
  split_and!.
  - intros Hnot.
    destruct (decide (DonationReportPayload.donorId payload = "")) as [->|H1]; [done|].
    destruct (decide (DonationReportPayload.charityId payload = "")) as [->|H2];
      [by rewrite orb_true_r|].
    destruct (decide (DonationReportPayload.campaignId payload = "")) as [->|H3];
      [by rewrite !orb_true_r|].
    destruct (decide (DonationReportPayload.campaignTitle payload = "")) as [->|H4];
      [by rewrite !orb_true_r|].
    destruct (decide (DonationReportPayload.amount payload = 0%Z)) as [->|H5];
      [by rewrite !orb_true_r|].
    by destruct Hnot.
  - intros (?&?&?&?&?) Hd.
    rewrite !truthy_nonempty, truthy_nat64_nonzero by done. run. by rewrite Hd.
  - intros (?&?&?&?&?) [d Hd] Hc.
    rewrite !truthy_nonempty, truthy_nat64_nonzero by done. run. by rewrite Hd, Hc.
  - intros (?&?&?&?&?) [d Hd] [c Hc] Hk.
    rewrite !truthy_nonempty, truthy_nat64_nonzero by done. run. by rewrite Hd, Hc, Hk.
  - intros (?&?&?&?&?) [d Hd] [c Hc] [k Hk]. cbv zeta.
    rewrite !truthy_nonempty, truthy_nat64_nonzero by done. run. rewrite Hd, Hc, Hk.
    split; [done|]. unfold getAllDonationReports. run.
    set (report := DonationReport.mk _ _ _ _ _ _ _ _ _).
    assert (report ∈ (map_to_list (<[uuid env := report]> (donationReportStorage s))).*2)
      as Hin by (apply values_elem; exists (uuid env); apply lookup_insert_eq).
    eexists. split; [by apply (listing_nonempty _ _ _ _ Hin)|done].
Qed.

End Properties.

(** ** The scenario, run *)

Section Scenario.

#[local] Existing Instance sample_platform.

Lemma reachable_call env call s s' :
  reachable s → uuid env ≠ "" → (dispatch env call s).2 = s' → reachable s'.
Proof. intros Hreach Huuid <-. by constructor. Qed.

Lemma state_campaign_reachable : reachable state_campaign.
Proof.
  apply (reachable_call env_campaign (CreateCampaign campaign_payload) state_charity);
    [|done|by vm_compute].
  apply (reachable_call env_charity (CreateCharityProfile charity_payload) state_donor);
    [|done|by vm_compute].
  apply (reachable_call env_donor (CreateDonorProfile donor_payload) init_state);
    [|done|by vm_compute].
  constructor.
Qed.

Lemma state_reserved_reachable : reachable state_reserved.
Proof.
  apply (reachable_call env_reserve (ReserveDonation donation_payload) state_campaign);
    [|done|by vm_compute].
  apply state_campaign_reachable.
Qed.

Lemma state_reserved_one_reachable : reachable state_reserved_one.
Proof.
  apply (reachable_call env_reserve_later (ReserveDonation donation_payload_one)
           state_completed_max); [|done|by vm_compute].
  apply (reachable_call (env_alice_paid max_nat64)
           (CompleteReserveDonation bob "donor-1" max_nat64 5 sample_memo)
           state_reserved_max); [|done|by vm_compute].
  apply (reachable_call env_reserve (ReserveDonation donation_payload_max) state_campaign);
    [|done|by vm_compute].
  apply state_campaign_reachable.
Qed.

(** [reserve(D, C, X, 100)], a matching transfer in block 5, [complete]:
    the donation is completed and the donor has given 100. *)
Example reserve_verify_complete :
  (reserveDonation env_reserve donation_payload state_campaign).1
  = Normal (Ok sample_reserve)
  ∧ verifyPayment (env_alice_paid 100) bob 100 5 sample_memo = Normal true
  ∧ (completeReserveDonation (env_alice_paid 100) bob "donor-1" 100 5 sample_memo
       state_reserved).1
    = Normal (Ok (paid sample_reserve 5))
  ∧ DonorProfile.donationAmount
      <$> donorProfileStorage
            (completeReserveDonation (env_alice_paid 100) bob "donor-1" 100 5 sample_memo
               state_reserved).2 !! "donor-1"
    = Some 100%Z.
Proof. by vm_compute. Qed.

(** The same with a transfer of 50 in the block: nothing is verified and the
    reserve stays pending. *)
Example reserve_underpaid :
  verifyPayment (env_alice_paid 50) bob 100 5 sample_memo = Normal false
  ∧ completeReserveDonation (env_alice_paid 50) bob "donor-1" 100 5 sample_memo
      state_reserved
    = (Normal (Err (NotFound
         "Cannot complete the donation reserve: cannot verify the payment, memo=25")),
       state_reserved).
Proof. by vm_compute. Qed.

(** ... but completing with the price 50 is accepted, and credits 50 against
    the reserve of 100. *)
Example reserve_completed_at_another_price :
  Donation.amount <$> pendingReserves state_reserved !! sample_memo = Some 100%Z
  ∧ DonorProfile.donationAmount
      <$> donorProfileStorage
            (completeReserveDonation (env_alice_paid 50) bob "donor-1" 50 5 sample_memo
               state_reserved).2 !! "donor-1"
    = Some 50%Z.
Proof. by vm_compute. Qed.

(** The ledger rejects the call: the completion throws and the reserve stays
    pending. *)
Example reserve_ledger_rejects :
  completeReserveDonation env_rejected bob "donor-1" 100 5 sample_memo state_reserved
  = (Throw "Error: the ledger rejected the call", state_reserved).
Proof. by vm_compute. Qed.

Lemma complete_after_reserve_witness :
  ∃ donation s',
    completeReserveDonation (env_alice_paid 100) bob (Donation.donorId sample_reserve)
      (Donation.amount sample_reserve) 5 sample_memo state_reserved
    = (Normal (Ok donation), s')
    ∧ Donation.status donation = DonationStatus.Completed "COMPLETED"
    ∧ Donation.paid_at_block donation = Some 5%Z
    ∧ ∃ donor',
        donorProfileStorage s' !! Donation.donorId sample_reserve = Some donor'
        ∧ DonorProfile.donationAmount donor'
          = (DonorProfile.donationAmount sample_donor + Donation.amount sample_reserve)%Z.
Proof.
  destruct (complete_after_reserve (env_alice_paid 100) state_reserved bob 5 sample_memo
              sample_reserve sample_donor) as [Hfits _].
  - exact state_reserved_reachable.
  - vm_compute; reflexivity.
  - vm_compute; reflexivity.
  - vm_compute; reflexivity.
  - apply Hfits. vm_compute; reflexivity.
Defined.

(** Against C1 as the specification has it: [alice] has given the largest
    [nat64] and reserves 1 more; the ledger verifies her payment of 1, and the
    completion throws instead of returning a completed donation. *)
Lemma complete_after_reserve_overflows :
  reachable state_reserved_one
  ∧ pendingReserves state_reserved_one !! sample_memo2 = Some sample_reserve_one
  ∧ donorProfileStorage state_reserved_one !! Donation.donorId sample_reserve_one
    = Some sample_donor_max
  ∧ verifyPaymentInternal env_alice_paid_one bob (Donation.amount sample_reserve_one) 5
      sample_memo2
    = Normal true
  ∧ completeReserveDonation env_alice_paid_one bob (Donation.donorId sample_reserve_one)
      (Donation.amount sample_reserve_one) 5 sample_memo2 state_reserved_one
    = (Throw "Error: not a nat64: 18446744073709551616", state_reserved_one).
Proof. split; [exact state_reserved_one_reachable|]. by vm_compute. Qed.

Lemma complete_at_most_once_witness :
  let end1 := completeReserveDonation (env_alice_paid 100) bob "donor-1" 100 5 sample_memo
                state_reserved in
  pendingReserves end1.2 !! sample_memo = None
  ∧ ∃ text,
      completeReserveDonation (env_alice_paid 100) bob "donor-1" 100 5 sample_memo end1.2
      = (Normal (Err (NotFound text)), end1.2).
Proof.
  destruct (complete_at_most_once (env_alice_paid 100) bob "donor-1" 100 5
              (env_alice_paid 100) bob "donor-1" 100 5 sample_memo state_reserved)
    as (Hreturned & _ & _).
  - vm_compute; reflexivity.
  - vm_compute; reflexivity.
  - apply (Hreturned (Ok (paid sample_reserve 5))). vm_compute; reflexivity.
Defined.

(** Against C2 as the specification has it: the ledger verifies the payment
    both times; the first call names a donor that is not stored and throws,
    which leaves the reserve pending, and the second call does not fail with
    [NotFound]: it completes the reserve. *)
Lemma complete_twice_after_throw :
  let end1 := completeReserveDonation (env_alice_paid 100) bob "donor-9" 100 5 sample_memo
                state_reserved in
  reachable state_reserved
  ∧ verifyPaymentInternal (env_alice_paid 100) bob 100 5 sample_memo = Normal true
  ∧ end1 = (Throw "Error: Donor with id=donor-9 not found", state_reserved)
  ∧ pendingReserves end1.2 !! sample_memo = Some sample_reserve
  ∧ (completeReserveDonation (env_alice_paid 100) bob "donor-1" 100 5 sample_memo end1.2).1
    = Normal (Ok (paid sample_reserve 5)).
Proof. split; [exact state_reserved_reachable|]. by vm_compute. Qed.

Lemma complete_unverified_keeps_state_witness :
  (∃ text,
     completeReserveDonation (env_alice_paid 100) bob "donor-1" 100 4 sample_memo
       state_reserved
     = (Normal (Err (NotFound text)), state_reserved))
  ∧ ∃ donation s',
      completeReserveDonation (env_alice_paid 100) bob "donor-1" 100 5 sample_memo
        (completeReserveDonation (env_alice_paid 100) bob "donor-1" 100 4 sample_memo
           state_reserved).2
      = (Normal (Ok donation), s').
Proof.
  destruct (complete_unverified_keeps_state (env_alice_paid 100) bob "donor-1" 100 4
              sample_memo state_reserved) as [Hfails Hretry].
  - vm_compute; reflexivity.
  - split; [exact Hfails|].
    apply (Hretry (env_alice_paid 100) 5%Z sample_reserve sample_donor).
    + exact state_reserved_reachable.
    + vm_compute; reflexivity.
    + vm_compute; reflexivity.
    + vm_compute; reflexivity.
    + vm_compute; reflexivity.
Defined.

(** Against C4 as the specification has it: [verifyPayment] throws when the
    ledger rejects the call; and it returns [true] on a transfer whose source
    is the address of [eve], not that of the caller [alice], because the two
    addresses have one hash value. *)
Lemma verifyPayment_throws_and_collides :
  verifyPayment env_rejected bob 100 5 sample_memo
  = Throw "Error: the ledger rejected the call"
  ∧ caller env_eve_paid = alice
  ∧ query_blocks env_eve_paid 5 1
    = Answered [transfer_block sample_platform eve bob 100 sample_memo]
  ∧ binaryAddressFromPrincipal eve 0 ≠ binaryAddressFromPrincipal alice 0
  ∧ verifyPayment env_eve_paid bob 100 5 sample_memo = Normal true.
Proof. split_and!; by vm_compute. Qed.

(** Against C7 as the specification has it: the reserve has expired, and a
    completion with its memo does not fail with [NotFound] when the ledger
    rejects the call: it throws. *)
Lemma complete_after_expiry_throws :
  let s1 := (discardByTimeout_callback sample_memo state_reserved).2 in
  pendingReserves state_reserved !! sample_memo = Some sample_reserve
  ∧ pendingReserves s1 !! sample_memo = None
  ∧ completeReserveDonation env_rejected bob "donor-1" 100 5 sample_memo s1
    = (Throw "Error: the ledger rejected the call", s1).
Proof. by vm_compute. Qed.

(** Against C8 as the specification has it: two calls that throw although
    the donor is stored, one because the ledger rejects the call, one because
    the credited amount is no [nat64]; and the call that throws for a donor
    that is not stored has not removed the pending reserve. *)
Lemma completion_throws_with_donor_stored :
  donorProfileStorage state_reserved !! "donor-1" = Some sample_donor
  ∧ (dispatch env_rejected (CompleteReserveDonation bob "donor-1" 100 5 sample_memo)
       state_reserved).1
    = Throw "Error: the ledger rejected the call"
  ∧ donorProfileStorage state_reserved_one !! "donor-1" = Some sample_donor_max
  ∧ (dispatch env_alice_paid_one (CompleteReserveDonation bob "donor-1" 1 5 sample_memo2)
       state_reserved_one).1
    = Throw "Error: not a nat64: 18446744073709551616"
  ∧ (dispatch (env_alice_paid 100)
       (CompleteReserveDonation bob "donor-9" 100 5 sample_memo) state_reserved).1
    = Throw "Error: Donor with id=donor-9 not found"
  ∧ pendingReserves
      (dispatch (env_alice_paid 100)
         (CompleteReserveDonation bob "donor-9" 100 5 sample_memo) state_reserved).2
      !! sample_memo
    = Some sample_reserve.
Proof. by vm_compute. Qed.

Lemma reserveDonation_not_found_witness :
  reserveDonation env_reserve unknown_donor_payload state_campaign
  = (Normal (Err (NotFound "Cannot reserve donation: Donor with id=donor-2 not found")),
     state_campaign).
Proof.
  apply (reserveDonation_not_found env_reserve unknown_donor_payload state_campaign).
  - vm_compute; discriminate.
  - vm_compute; discriminate.
  - vm_compute; discriminate.
  - vm_compute; reflexivity.
Defined.

Lemma reserveDonation_ok_witness :
  ∃ reserve s',
    reserveDonation env_reserve donation_payload state_campaign = (Normal (Ok reserve), s')
    ∧ Donation.status reserve = DonationStatus.PaymentPending "PaymentPending"
    ∧ Donation.donator reserve = DonorProfile.owner sample_donor
    ∧ Donation.receiver reserve = Campaign.creator sample_campaign
    ∧ Donation.memo reserve
      = generateCorrelationId env_reserve (DonationPayload.donorId donation_payload)
    ∧ pendingReserves s' !! Donation.memo reserve = Some reserve
    ∧ timers s' = (timers state_campaign ++ [(TIMEOUT_PERIOD, Donation.memo reserve)])%list.
Proof.
  apply (reserveDonation_ok env_reserve donation_payload state_campaign
           sample_donor sample_charity sample_campaign).
  - exact state_campaign_reachable.
  - vm_compute; reflexivity.
  - vm_compute; reflexivity.
  - vm_compute; reflexivity.
Defined.

Lemma completeCampaign_any_caller_witness :
  Campaign.creator sample_campaign ≠ caller env_stranger
  ∧ ∃ updatedCampaign s',
      completeCampaign env_stranger "campaign-1" state_campaign
      = (Normal (Ok updatedCampaign), s')
      ∧ Campaign.creator updatedCampaign = Campaign.creator sample_campaign
      ∧ Campaign.status updatedCampaign = CampaignStatus.Completed "Completed"
      ∧ campaignStorage s' !! "campaign-1" = Some updatedCampaign.
Proof.
  split; [vm_compute; discriminate|].
  apply (completeCampaign_any_caller env_stranger "campaign-1" state_campaign
           sample_campaign).
  vm_compute; reflexivity.
Defined.

(** *** More of the scenario *)

Lemma state_two_donors_reachable : reachable state_two_donors.
Proof.
  apply (reachable_call env_donor2 (CreateDonorProfile donor2_payload) state_reserved);
    [|done|by vm_compute].
  apply state_reserved_reachable.
Qed.

Lemma state_two_reserves_reachable : reachable state_two_reserves.
Proof.
  apply (reachable_call env_reserve_later (ReserveDonation donation_payload2)
           state_reserved); [|done|by vm_compute].
  apply state_reserved_reachable.
Qed.

Lemma sample_strict_neq (a b : Principal) : a ≠ b → strict_neq a b = true.
Proof. done. Qed.

Lemma reachable_ids_witness : ids_ok state_two_reserves.
Proof. apply (reachable_ids state_two_reserves). exact state_two_reserves_reachable. Defined.

Lemma reachable_aggregates_witness : aggregates_ok state_two_reserves.
Proof.
  apply (reachable_aggregates state_two_reserves). exact state_two_reserves_reachable.
Defined.

Lemma reachable_reserves_witness : reserves_ok state_two_reserves.
Proof.
  apply (reachable_reserves state_two_reserves). exact state_two_reserves_reachable.
Defined.

Lemma createDonorProfile_valid_witness :
  ∃ s', createDonorProfile env_donor donor_payload init_state
        = (Normal (Ok sample_donor), s')
        ∧ getDonorProfileById "donor-1" s' = (Normal (Ok sample_donor), s').
Proof.
  destruct (createDonorProfile_valid env_donor donor_payload init_state)
    as (donor & s' & Hrun & -> & Hget & _).
  - vm_compute; discriminate.
  - vm_compute; discriminate.
  - vm_compute; discriminate.
  - vm_compute; discriminate.
  - vm_compute; reflexivity.
  - intros k d Hl. simpl in Hl. by rewrite lookup_empty in Hl.
  - by exists s'.
Defined.

Lemma profile_mutations_refused_witness :
  updateDonorProfile env_stranger "donor-1" donor2_payload state_charity
  = (Normal (Err (Error "Unauthorized")), state_charity)
  ∧ deleteCharityProfile env_stranger "charity-1" state_charity
    = (Normal (Err (Error "Unauthorized")), state_charity).
Proof.
  destruct (profile_mutations_refused env_stranger state_charity sample_strict_neq)
    as [Hdonor Hcharity].
  split.
  - apply (Hdonor "donor-1" sample_donor donor2_payload);
      [vm_compute; reflexivity|vm_compute; discriminate].
  - apply (Hcharity "charity-1" sample_charity charity_payload);
      [vm_compute; reflexivity|vm_compute; discriminate].
Defined.

Lemma createCharityProfile_valid_witness :
  ∃ s', createCharityProfile env_charity charity_payload state_donor
        = (Normal (Ok sample_charity), s')
        ∧ getCharityProfileById "charity-1" s' = (Normal (Ok sample_charity), s').
Proof.
  destruct (createCharityProfile_valid env_charity charity_payload state_donor)
    as (charity & s' & Hrun & -> & Hget & _).
  - vm_compute; discriminate.
  - vm_compute; discriminate.
  - vm_compute; discriminate.
  - vm_compute; discriminate.
  - vm_compute; discriminate.
  - vm_compute; reflexivity.
  - intros k c Hl.
    assert (charityProfileStorage state_donor = ∅) as Hempty by by vm_compute.
    rewrite Hempty in Hl. by rewrite lookup_empty in Hl.
  - by exists s'.
Defined.

Lemma createCampaign_valid_witness :
  ∃ s', createCampaign env_campaign campaign_payload state_charity
        = (Normal (Ok sample_campaign), s')
        ∧ getCampaignById "campaign-1" s' = (Normal (Ok sample_campaign), s').
Proof.
  destruct (createCampaign_valid env_campaign campaign_payload state_charity
              sample_charity) as (campaign & s' & Hrun & -> & Hget & _).
  - vm_compute; discriminate.
  - vm_compute; discriminate.
  - vm_compute; discriminate.
  - vm_compute; reflexivity.
  - by exists s'.
Defined.

Lemma acceptCampaign_effect_witness :
  ∃ s' l,
    acceptCampaign env_stranger "donor-1" "campaign-1" state_campaign
    = (Normal (Ok (accepted_by sample_campaign "donor-1")), s')
    ∧ getDonorCampaigns "donor-1" s' = (Normal (Ok l), s')
    ∧ accepted_by sample_campaign "donor-1" ∈ l.
Proof.
  destruct (acceptCampaign_effect env_stranger "donor-1" "campaign-1" state_campaign
              sample_donor sample_campaign) as (s' & Hrun & _ & _ & (l & Hl & Hin) & _).
  - vm_compute; reflexivity.
  - vm_compute; reflexivity.
  - by exists s', l.
Defined.

Lemma acceptCampaign_twice_witness :
  ∃ s1 s2 updated,
    acceptCampaign env_donor "donor-1" "campaign-1" state_campaign
    = (Normal (Ok (accepted_by sample_campaign "donor-1")), s1)
    ∧ acceptCampaign env_donor "donor-1" "campaign-1" s1 = (Normal (Ok updated), s2)
    ∧ Campaign.donors updated = ["donor-1"; "donor-1"].
Proof.
  destruct (acceptCampaign_twice env_donor env_donor "donor-1" "campaign-1"
              state_campaign sample_donor sample_campaign)
    as (s1 & s2 & updated & donor2 & Hrun1 & Hrun2 & Hdonors & _).
  - vm_compute; reflexivity.
  - vm_compute; reflexivity.
  - by exists s1, s2, updated.
Defined.


Lemma completeCampaign_then_accept_witness :
  ∃ s1 s2 updated,
    completeCampaign env_campaign "campaign-1" state_campaign
    = (Normal (Ok (completed sample_campaign)), s1)
    ∧ acceptCampaign env_donor "donor-1" "campaign-1" s1 = (Normal (Ok updated), s2)
    ∧ Campaign.status updated = CampaignStatus.Accepted "Accepted".
Proof.
  destruct (completeCampaign_then_accept env_campaign env_donor "donor-1" "campaign-1"
              state_campaign sample_donor sample_campaign)
    as (s1 & s2 & updated & Hrun1 & Hrun2 & Hstatus & _).
  - vm_compute; reflexivity.
  - vm_compute; reflexivity.
  - by exists s1, s2, updated.
Defined.

Lemma campaign_mutations_refused_witness :
  deleteCampaignById env_stranger "campaign-1" state_campaign
  = (Normal (Err (Error "Unauthorized")), state_campaign)
  ∧ getCampaignById "campaign-1" state_campaign
    = (Normal (Ok sample_campaign), state_campaign).
Proof.
  destruct (campaign_mutations_refused env_stranger "campaign-1" state_campaign
              sample_campaign sample_strict_neq) as (_ & Hdel & Hget).
  - vm_compute; reflexivity.
  - vm_compute; discriminate.
  - by split.
Defined.

Lemma state_reserved_keys : donor_keys_ok state_reserved.
Proof. by destruct (reachable_well_formed _ state_reserved_reachable) as (? & _). Qed.

Lemma state_two_donors_keys : donor_keys_ok state_two_donors.
Proof. by destruct (reachable_well_formed _ state_two_donors_reachable) as (? & _). Qed.

Lemma state_two_reserves_keys : donor_keys_ok state_two_reserves.
Proof. by destruct (reachable_well_formed _ state_two_reserves_reachable) as (? & _). Qed.

Lemma complete_frame_witness :
  campaignStorage
    (completeReserveDonation (env_alice_paid 100) bob "donor-1" 100 5 sample_memo
       state_reserved).2
  = campaignStorage state_reserved.
Proof.
  apply (complete_frame (env_alice_paid 100) bob "donor-1" 100 5 sample_memo
           state_reserved).
  exact state_reserved_keys.
Defined.

Lemma complete_credits_named_donor_witness :
  ∃ s',
    completeReserveDonation (env_alice_paid 100) bob "donor-2" 100 5 sample_memo
      state_two_donors
    = (Normal (Ok (paid sample_reserve 5)), s')
    ∧ donorProfileStorage s' !! "donor-2" = Some (credited sample_donor2 100)
    ∧ donorProfileStorage s' !! "donor-1" = Some sample_donor.
Proof.
  destruct (complete_credits_named_donor (env_alice_paid 100) bob "donor-2" 100 5
              sample_memo state_two_donors sample_reserve sample_donor2)
    as (s' & Hrun & Hnamed & Hother & _).
  - exact state_two_donors_keys.
  - vm_compute; reflexivity.
  - vm_compute; reflexivity.
  - vm_compute; reflexivity.
  - vm_compute; reflexivity.
  - vm_compute; discriminate.
  - exists s'. split_and!; try done; rewrite Hother; vm_compute; reflexivity.
Defined.

Lemma complete_then_listed_witness :
  ∃ s' l,
    completeReserveDonation (env_alice_paid 100) bob "donor-1" 100 5 sample_memo
      state_reserved
    = (Normal (Ok (paid sample_reserve 5)), s')
    ∧ getAllDonations s' = (Normal (Ok l), s')
    ∧ paid sample_reserve 5 ∈ l.
Proof.
  destruct (complete_then_listed (env_alice_paid 100) bob "donor-1" 100 5 sample_memo
              state_reserved sample_reserve sample_donor)
    as (s' & Hrun & (l & Hl & Hin) & _).
  - vm_compute; reflexivity.
  - vm_compute; reflexivity.
  - vm_compute; reflexivity.
  - vm_compute; reflexivity.
  - by exists s', l.
Defined.

Lemma second_completion_replaces_first_witness :
  ∃ s1 s2,
    completeReserveDonation (env_alice_paid 100) bob "donor-1" 100 5 sample_memo
      state_two_reserves
    = (Normal (Ok (paid sample_reserve 5)), s1)
    ∧ completeReserveDonation env_alice_paid2 bob "donor-1" 30 5 sample_memo2 s1
      = (Normal (Ok (paid sample_reserve2 5)), s2)
    ∧ donorProfileStorage s2 !! "donor-1"
      = Some (credited (credited sample_donor 100) 30)
    ∧ size (persistedReserves s2) = size (persistedReserves s1).
Proof.
  destruct (second_completion_replaces_first (env_alice_paid 100) env_alice_paid2
              bob bob "donor-1" 100 30 5 5 sample_memo sample_memo2
              state_two_reserves sample_reserve sample_reserve2 sample_donor)
    as (s1 & s2 & Hrun1 & Hrun2 & Hdonor & _ & Hsize).
  - exact state_two_reserves_keys.
  - reflexivity.
  - vm_compute; discriminate.
  - vm_compute; reflexivity.
  - vm_compute; reflexivity.
  - vm_compute; reflexivity.
  - vm_compute; reflexivity.
  - vm_compute; reflexivity.
  - vm_compute; reflexivity.
  - vm_compute; reflexivity.
  - by exists s1, s2.
Defined.

Lemma reserveDonation_same_memo_witness :
  ∃ reserve1 reserve2 s1 s2,
    reserveDonation env_reserve donation_payload state_campaign
    = (Normal (Ok reserve1), s1)
    ∧ reserveDonation env_reserve donation_payload2 s1 = (Normal (Ok reserve2), s2)
    ∧ Donation.memo reserve1 = Donation.memo reserve2
    ∧ pendingReserves s2
      = <[Donation.memo reserve2 := reserve2]> (pendingReserves state_campaign).
Proof.
  destruct (reserveDonation_same_memo env_reserve env_reserve donation_payload
              donation_payload2 state_campaign sample_donor sample_charity
              sample_charity sample_campaign sample_campaign)
    as (reserve1 & reserve2 & s1 & s2 & Hrun1 & Hrun2 & Hmemo & Hpending & _).
  1-3: reflexivity.
  1-5: vm_compute; discriminate.
  1-5: vm_compute; reflexivity.
  by exists reserve1, reserve2, s1, s2.
Defined.

Lemma reserve_then_expire_witness :
  ∃ s2,
    timerFires (length (timers state_campaign)) state_reserved = (Normal (), s2)
    ∧ s2 = state_campaign.
Proof.
  destruct (reserve_then_expire env_reserve donation_payload state_campaign
              sample_reserve state_reserved) as (s2 & Hfire & _ & Hsame & _).
  - vm_compute; reflexivity.
  - exists s2. split; [done|]. apply Hsame. vm_compute; reflexivity.
Defined.

Lemma mutations_refused_to_all_witness :
  Campaign.creator sample_campaign = caller env_campaign
  ∧ updateCampaign env_campaign "campaign-1" campaign_payload state_campaign
    = (Normal (Err (Error "Unauthorized")), state_campaign).
Proof.
  split; [reflexivity|].
  destruct (mutations_refused_to_all env_campaign state_campaign)
    as (_ & _ & Hcampaign).
  - done.
  - apply (Hcampaign "campaign-1" sample_campaign campaign_payload).
    vm_compute; reflexivity.
Defined.

End Scenario.
